(** * mcp-chat-client backend: the tool-augmented turn orchestrator

    A shallow embedding of [backend/app/agent.py], [backend/app/main.py],
    [backend/app/schemas.py] and [backend/app/config.py].

    Python dicts with string keys are [gmap string _]; lists are [list];
    the external collaborators (the chat model, the MCP client and the
    ReAct agent of LangGraph) are the fields of a record [Engine], the
    way a test would stub them.  Calls to collaborators and the [yield]s
    of the async generators are recorded in a trace, so that what a
    consumer has seen, and what the producer has done by then, can be
    read off any prefix of that trace.  A Rocq string stands for the
    UTF-8 encoding of a Python [str].  [logger] calls are left out, except
    the one of [get_mcp_server_config], which
    [get_mcp_server_config_logged] keeps. *)

From stdpp Require Import gmap strings list fin_maps pretty.

(* ===================================================================== *)
(** ** schemas.py *)
(* ===================================================================== *)

(** [class MCPType(str, Enum)]: the members are strings and [==] on them
    is string equality, so an identifier is a string and the only member
    is the string ["filesystem"]; [.value] is the string itself. *)
Abbreviation MCPType := string (only parsing).

Definition FILESYSTEM : MCPType := "filesystem".

Definition value (mcp : MCPType) : string := mcp.

(** [class ChatMessage(BaseModel)]: [role: str], [content: str]; the
    model declares no validator on [role]. *)
Record ChatMessage := { role : string; content : string }.

(* ===================================================================== *)
(** ** config.py *)
(* ===================================================================== *)

Record Settings := {
  google_api_key : string;
  model_name : string;
  filesystem_allowed_path : string;
  host : string;
  port : Z
}.

(* ===================================================================== *)
(** ** agent.py: [get_mcp_server_config] *)
(* ===================================================================== *)

(** One entry of the dict handed to [MultiServerMCPClient]. *)
Record ServerSpec := {
  command : string;
  args : list string;
  transport : string
}.

#[global] Instance ServerSpec_eq_dec : EqDecision ServerSpec.
Proof. solve_decision. Defined.

(** The default of the parameter [filesystem_path]. *)
Definition default_filesystem_path : string := "/Users/mohitpaddhariya".

Definition filesystem_spec (filesystem_path : string) : ServerSpec :=
  {| command := "npx";
     args := ["-y"; "@modelcontextprotocol/server-filesystem"; filesystem_path];
     transport := "stdio" |}.

(** The body of the [for mcp_type in selected_mcps] loop. *)
Definition config_step (filesystem_path : string)
    (config : gmap string ServerSpec) (mcp_type : MCPType) : gmap string ServerSpec :=
  if decide (mcp_type = FILESYSTEM)
  then <["filesystem" := filesystem_spec filesystem_path]> config
  else config.

Definition get_mcp_server_config (selected_mcps : list MCPType)
    (filesystem_path : string) : gmap string ServerSpec :=
  foldl (config_step filesystem_path) ∅ selected_mcps.

(** A call [logger.info(f"...{value}")]: the literal part of the f-string,
    and the value whose [repr] it ends with. *)
Record LogRecord := { log_text : string; log_value : list MCPType }.

(** [get_mcp_server_config] with the [logger.info] call of its first
    statement: what it logs, and the dict it returns. *)
Definition get_mcp_server_config_logged (selected_mcps : list MCPType)
    (filesystem_path : string) : list LogRecord * gmap string ServerSpec :=
  ([{| log_text := "[get_mcp_server_config] Building config for: ";
       log_value := selected_mcps |}],
   get_mcp_server_config selected_mcps filesystem_path).

(* ===================================================================== *)
(** ** LangChain messages, as far as the orchestrator looks into them *)
(* ===================================================================== *)

(** An entry of [AIMessage.tool_calls]; the code reads [tool_call["name"]]. *)
Record ToolCall := { call_name : string; call_args : string; call_id : string }.

(** Only [AIMessage] has the attribute [tool_calls]. *)
Inductive BaseMessage :=
| SystemMessage (text : string)
| HumanMessage (text : string)
| AIMessage (text : string) (tool_calls : list ToolCall)
| ToolMessage (text : string) (tool_call_id : string).

#[global] Instance ToolCall_eq_dec : EqDecision ToolCall.
Proof. solve_decision. Defined.

#[global] Instance BaseMessage_eq_dec : EqDecision BaseMessage.
Proof. solve_decision. Defined.

(** [msg.content] *)
Definition msg_content (msg : BaseMessage) : string :=
  match msg with
  | SystemMessage c | HumanMessage c | AIMessage c _ | ToolMessage c _ => c
  end.

(** [msg.tool_calls] where [hasattr(msg, "tool_calls") and msg.tool_calls]
    holds, the empty list where it does not. *)
Definition msg_tool_calls (msg : BaseMessage) : list ToolCall :=
  match msg with
  | AIMessage _ tcs => tcs
  | _ => []
  end.

(* ===================================================================== *)
(** ** agent.py: [MCPAgentBuilder._build_messages] and [_get_system_prompt] *)
(* ===================================================================== *)

(** The body of [for msg in conversation_history]: an [if]/[elif] on the
    role, with no [else]. *)
Definition history_step (messages : list BaseMessage) (msg : ChatMessage) : list BaseMessage :=
  if decide (role msg = "user") then messages ++ [HumanMessage (content msg)]
  else if decide (role msg = "assistant") then messages ++ [AIMessage (content msg) []]
  else messages.

(** [conversation_history] is [list[ChatMessage] | None]; [None] and the
    empty list are both falsy. *)
Definition _build_messages (user_message : string)
    (conversation_history : option (list ChatMessage)) : list BaseMessage :=
  let messages := [] in
  let messages :=
    match conversation_history with
    | Some ((_ :: _) as history) => foldl history_step messages history
    | _ => messages
    end in
  messages ++ [HumanMessage user_message].

(** [", ".join(xs)] *)
Definition join (sep : string) (xs : list string) : string := String.concat sep xs.

Definition tooled_prompt (mcps_info tools_info : string) : string :=
  "You currently have access to the following MCP servers: " +:+ mcps_info +:+ ". " +:+
  "Available tools: " +:+ tools_info +:+ ". " +:+
  "IMPORTANT: Ignore any previous messages in the conversation history that say you don't have access to tools - " +:+
  "your tool access has been updated for this request. You DO have tools available now. " +:+
  "You can access the user's local files under /Users/mohitpaddhariya using filesystem tools (e.g., read_file, list_directory). " +:+
  "Do not say you cannot access local files; instead, invoke the appropriate tool. " +:+
  "Use the tools available to you to help the user with their request.".

Definition toolless_prompt : string :=
  "You currently do not have access to any external tools or MCP servers. " +:+
  "If the user asks you to perform actions that require tools (like reading files, listing directories, etc.), " +:+
  "politely explain that no tools are currently selected and suggest they select the appropriate MCP tools from the sidebar.".

Definition _get_system_prompt (selected_mcps : list MCPType)
    (available_tools : option (list string)) : string :=
  match selected_mcps, available_tools with
  | _ :: _, Some ((_ :: _) as tools) =>
      let tools_info := join ", " tools in
      let mcps_info := join ", " (value <$> selected_mcps) in
      tooled_prompt mcps_info tools_info
  | _, _ => toolless_prompt
  end.

(** [[SystemMessage(content=system_prompt)] + self._build_messages(...)],
    the expression that all four paths of [run_agent] and [stream_agent]
    hand to the model. *)
Definition assemble (system_prompt : string) (conversation_history : option (list ChatMessage))
    (user_message : string) : list BaseMessage :=
  [SystemMessage system_prompt] ++ _build_messages user_message conversation_history.

(* ===================================================================== *)
(** ** Collaborator values *)
(* ===================================================================== *)

(** A tool as discovered by [client.get_tools()]: the code reads [name]
    and writes [handle_tool_error]. *)
Record Tool := { name : string; handle_tool_error : bool }.

(** [ChatGoogleGenerativeAI(model=..., google_api_key=..., temperature=0.7)];
    the temperature is a constant of the constructor call. *)
Record LLM := { llm_model : string; llm_api_key : string }.

(** [create_react_agent(model=self.llm, tools=tools)] *)
Record Agent := { agent_model : LLM; agent_tools : list Tool }.

Definition create_react_agent (model : LLM) (tools : list Tool) : Agent :=
  {| agent_model := model; agent_tools := tools |}.

(** A Python value as far as the code inspects it: [str(v)], and whether
    [json.dumps(v)] succeeds or raises [TypeError]/[ValueError]. *)
Record PyVal := { py_str : string; json_serializable : bool }.

(** A Python [str] is its own [str()] and always serializable. *)
Definition py_of_str (s : string) : PyVal :=
  {| py_str := s; json_serializable := true |}.

(** The literal [{}]. *)
Definition py_empty_dict : PyVal := {| py_str := "{}"; json_serializable := true |}.

(** [event["data"]] of an [astream_events] event: the content of
    [data["chunk"]], and the optional entries ["input"] and ["output"]. *)
Record EventData := {
  chunk : string;
  input : option PyVal;
  output : option PyVal
}.

(** An event of [agent.astream_events(..., version="v2")]. *)
Record AgentEvent := {
  event : string;
  event_name : string;
  data : EventData
}.

(** The dicts [stream_agent] yields, and the error dict of
    [event_generator], by their ["type"]. *)
Inductive StreamEvent :=
| Token (content : string)
| ToolStart (tool : string) (input : PyVal)
| ToolEnd (tool : string) (output : string)
| Done (tools_used : list string)
| Error (message : string).

(** [event["type"]] *)
Definition type_of (ev : StreamEvent) : string :=
  match ev with
  | Token _ => "token"
  | ToolStart _ _ => "tool_start"
  | ToolEnd _ _ => "tool_end"
  | Done _ => "done"
  | Error _ => "error"
  end.

(** Python exceptions.  [Exception] and [HTTPException] are instances of
    [Exception]; [BaseException cls msg] is one that is not, of class
    [cls]: [CancelledError], [KeyboardInterrupt], [SystemExit],
    [GeneratorExit]. *)
Inductive Exn :=
| Exception (msg : string)
| HTTPException (status_code : Z) (detail : string)
| BaseException (cls : string) (msg : string).

(** [isinstance(e, Exception)] *)
Definition is_exception (e : Exn) : bool :=
  match e with
  | Exception _ | HTTPException _ _ => true
  | BaseException _ _ => false
  end.

(** [str(e)]; an [HTTPException] prints as its status, a colon and its
    detail. *)
Definition str_exn (e : Exn) : string :=
  match e with
  | Exception msg => msg
  | HTTPException status_code detail => pretty status_code +:+ ": " +:+ detail
  | BaseException _ msg => msg
  end.

(** A byte [10xxxxxx], which continues a code point in UTF-8. *)
Definition is_continuation (c : Ascii.ascii) : bool :=
  match c with
  | Ascii.Ascii _ _ _ _ _ _ b6 b7 => b7 && negb b6
  end.

(** [len(s)]: the number of code points. *)
Fixpoint code_points (s : string) : nat :=
  match s with
  | EmptyString => 0
  | String c rest => (if is_continuation c then 0 else 1) + code_points rest
  end.

(** [s[:n]]: the first [n] code points, each with all its bytes. *)
Fixpoint take_code_points (n : nat) (s : string) : string :=
  match s with
  | EmptyString => EmptyString
  | String c rest =>
      if is_continuation c then String c (take_code_points n rest)
      else match n with
           | 0 => EmptyString
           | S n' => String c (take_code_points n' rest)
           end
  end.

(* ===================================================================== *)
(** ** Traces of a coroutine or async generator *)
(* ===================================================================== *)

(** What the orchestrator asks of its collaborators. *)
Inductive Call :=
| NewClient (mcp_config : gmap string ServerSpec)
| GetTools
| LLMInvoke (llm : LLM) (messages : list BaseMessage)
| LLMStream (llm : LLM) (messages : list BaseMessage)
| AgentInvoke (agent : Agent) (messages : list BaseMessage)
| AgentStreamEvents (agent : Agent) (messages : list BaseMessage).

(** One step of a running body: a call on a collaborator or a [yield]. *)
Inductive Act (Y : Type) :=
| Do (c : Call)
| Yield (y : Y).
Arguments Do {Y} c.
Arguments Yield {Y} y.

(** How a body ends: [return] (or falling off the end), or an exception. *)
Inductive Outcome (A : Type) :=
| Returned (a : A)
| Raised (e : Exn).
Arguments Returned {A} a.
Arguments Raised {A} e.

(** A complete run: the steps in order, and the ending.  A consumer that
    stops reading, or a cancelled task, has seen a prefix of the steps. *)
Definition Run (Y A : Type) : Type := list (Act Y) * Outcome A.

Definition ret {Y A} (a : A) : Run Y A := ([], Returned a).

Definition raise {Y A} (e : Exn) : Run Y A := ([], Raised e).

Definition bind {Y A B} (m : Run Y A) (k : A → Run Y B) : Run Y B :=
  match m with
  | (steps, Returned a) => let '(steps', o) := k a in (steps ++ steps', o)
  | (steps, Raised e) => (steps, Raised e)
  end.

Notation "x ⇐ m ;; k" := (bind m (λ x, k))
  (at level 100, m at next level, right associativity,
   format "'[v' x  ⇐  m  ;;  '/' k ']'").
Notation "m ;;; k" := (bind m (λ _, k))
  (at level 100, right associativity).

(** [await c], where the collaborator answers [o]. *)
Definition call {Y A} (c : Call) (o : Outcome A) : Run Y A := ([Do c], o).

(** [yield y] *)
Definition yield {Y} (y : Y) : Run Y unit := ([Yield y], Returned ()).

(** [try: body  except Exception as e: handler(e)]: an exception that is
    not an instance of [Exception] is not caught. *)
Definition try_except {Y A} (body : Run Y A) (handler : Exn → Run Y A) : Run Y A :=
  match body with
  | (steps, Returned a) => (steps, Returned a)
  | (steps, Raised e) =>
      if is_exception e
      then let '(steps', o) := handler e in (steps ++ steps', o)
      else (steps, Raised e)
  end.

(** [for x in items: s = body(s, x)], the local state threaded through. *)
Fixpoint for_each {Y X S} (items : list X) (body : S → X → Run Y S) (s : S) : Run Y S :=
  match items with
  | [] => ret s
  | x :: rest => s' ⇐ body s x ;; for_each rest body s'
  end.

(** [async for x in source: ...] over a collaborator's stream: the items it
    produces, then its end or the exception it raises. *)
Definition async_for {Y X S} (source : list X * Outcome unit)
    (body : S → X → Run Y S) (s : S) : Run Y S :=
  s' ⇐ for_each source.1 body s ;;
  match source.2 with
  | Returned _ => ret s'
  | Raised e => raise e
  end.

(** [async for y in generator: body(y)] over another generator of this
    program: its calls happen as it is advanced, each of its [yield]s runs
    the body, and an exception of the body leaves the rest unrun. *)
Fixpoint drive {Y Z} (steps : list (Act Y)) (body : Y → Run Z unit) : Run Z unit :=
  match steps with
  | [] => ret ()
  | Do c :: rest => call c (Returned ()) ;;; drive rest body
  | Yield y :: rest => body y ;;; drive rest body
  end.

Definition async_for_gen {Y Z} (generator : Run Y unit) (body : Y → Run Z unit) : Run Z unit :=
  drive generator.1 body ;;;
  match generator.2 with
  | Returned _ => ret ()
  | Raised e => raise e
  end.

(** The values a run yields, in order. *)
Definition yields {Y} (steps : list (Act Y)) : list Y :=
  omap (λ a, match a with Yield y => Some y | Do _ => None end) steps.

(** The calls a run makes, in order. *)
Definition calls {Y} (steps : list (Act Y)) : list Call :=
  omap (λ a, match a with Do c => Some c | Yield _ => None end) steps.

(** The external collaborators, each a function from what it is given to
    what it answers.  Streams are finite: the items, then the ending. *)
Record Engine := {
  get_tools : gmap string ServerSpec → Outcome (list Tool);
  llm_ainvoke : LLM → list BaseMessage → Outcome BaseMessage;
  llm_astream : LLM → list BaseMessage → list string * Outcome unit;
  agent_ainvoke : Agent → list BaseMessage → Outcome (option (list BaseMessage));
  agent_astream_events : Agent → list BaseMessage → list AgentEvent * Outcome unit
}.

(* ===================================================================== *)
(** ** agent.py: [MCPAgentBuilder] *)
(* ===================================================================== *)

Record MCPAgentBuilder := {
  self_model_name : string;
  self_google_api_key : string;
  llm : LLM
}.

(** [MCPAgentBuilder.__init__] *)
Definition MCPAgentBuilder_init (model_name google_api_key : string) : MCPAgentBuilder :=
  {| self_model_name := model_name;
     self_google_api_key := google_api_key;
     llm := {| llm_model := model_name; llm_api_key := google_api_key |} |}.

(** [for tool in tools: tool.handle_tool_error = True]; the list keeps the
    same tool objects, so every later use of [tools] sees the flag. *)
Definition enable_error_handling (tools : list Tool) : list Tool :=
  (λ tool, {| name := name tool; handle_tool_error := true |}) <$> tools.

(** The two nested loops of [run_agent] that append to [tools_used]. *)
Definition collect_tool_calls (tools_used : list string)
    (final_messages : list BaseMessage) : list string :=
  foldl (λ tools_used msg,
           foldl (λ tools_used tool_call, tools_used ++ [call_name tool_call])
                 tools_used (msg_tool_calls msg))
        tools_used final_messages.

Definition run_agent (E : Engine) (self : MCPAgentBuilder) (user_message : string)
    (selected_mcps : list MCPType) (conversation_history : option (list ChatMessage))
    : Run Empty_set (string * list string) :=
  let tools_used := [] in
  let mcp_config := get_mcp_server_config selected_mcps default_filesystem_path in
  if decide (mcp_config = ∅) then
    let system_prompt := _get_system_prompt [] None in
    let messages := assemble system_prompt conversation_history user_message in
    response ⇐ call (LLMInvoke (llm self) messages) (llm_ainvoke E (llm self) messages) ;;
    ret (msg_content response, [])
  else
    call (NewClient mcp_config) (Returned ()) ;;;
    tools ⇐ call GetTools (get_tools E mcp_config) ;;
    let tools := enable_error_handling tools in
    let tool_names := name <$> tools in
    let agent := create_react_agent (llm self) tools in
    let system_prompt := _get_system_prompt selected_mcps (Some tool_names) in
    let messages := assemble system_prompt conversation_history user_message in
    result ⇐ call (AgentInvoke agent messages) (agent_ainvoke E agent messages) ;;
    let final_messages := default [] result in
    let tools_used := collect_tool_calls tools_used final_messages in
    let last_message := last final_messages in
    let response_content :=
      match last_message with
      | Some msg => msg_content msg
      | None => "No response generated."
      end in
    ret (response_content, tools_used).

(** The body of [async for event in agent.astream_events(...)]; the local
    list [tools_used] goes in and comes out. *)
Definition on_agent_event (tools_used : list string) (ev : AgentEvent)
    : Run StreamEvent (list string) :=
  let kind := event ev in
  if decide (kind = "on_chat_model_stream") then
    let content := chunk (data ev) in
    if decide (content ≠ "") then
      yield (Token content) ;;; ret tools_used
    else ret tools_used
  else if decide (kind = "on_tool_start") then
    let tool_name := event_name ev in
    let tools_used := tools_used ++ [tool_name] in
    let tool_input := default py_empty_dict (input (data ev)) in
    let tool_input :=
      if json_serializable tool_input then tool_input
      else py_of_str (py_str tool_input) in
    yield (ToolStart tool_name tool_input) ;;; ret tools_used
  else if decide (kind = "on_tool_end") then
    yield (ToolEnd (event_name ev)
             (take_code_points 500 (py_str (default (py_of_str "") (output (data ev)))))) ;;;
    ret tools_used
  else ret tools_used.

(** The body of [async for chunk in self.llm.astream(messages)]. *)
Definition on_chunk (_ : unit) (chunk_content : string) : Run StreamEvent unit :=
  if decide (chunk_content ≠ "") then yield (Token chunk_content) else ret ().

Definition stream_agent (E : Engine) (self : MCPAgentBuilder) (user_message : string)
    (selected_mcps : list MCPType) (conversation_history : option (list ChatMessage))
    : Run StreamEvent unit :=
  let mcp_config := get_mcp_server_config selected_mcps default_filesystem_path in
  if decide (mcp_config = ∅) then
    let system_prompt := _get_system_prompt [] None in
    let messages := assemble system_prompt conversation_history user_message in
    call (LLMStream (llm self) messages) (Returned ()) ;;;
    async_for (llm_astream E (llm self) messages) on_chunk () ;;;
    yield (Done [])
  else
    let tools_used := [] in
    call (NewClient mcp_config) (Returned ()) ;;;
    tools ⇐ call GetTools (get_tools E mcp_config) ;;
    let tools := enable_error_handling tools in
    let tool_names := name <$> tools in
    let agent := create_react_agent (llm self) tools in
    let system_prompt := _get_system_prompt selected_mcps (Some tool_names) in
    let messages := assemble system_prompt conversation_history user_message in
    call (AgentStreamEvents agent messages) (Returned ()) ;;;
    tools_used ⇐ async_for (agent_astream_events E agent messages) on_agent_event tools_used ;;
    yield (Done tools_used).

(* ===================================================================== *)
(** ** main.py: [chat] and [chat_stream] *)
(* ===================================================================== *)

Record ChatRequest := {
  message : string;
  selected_mcps : list MCPType;
  conversation_history : list ChatMessage
}.

Record ChatResponse := { response : string; tools_used : list string }.

(** [HTTP_500_INTERNAL_SERVER_ERROR] *)
Definition HTTP_500_INTERNAL_SERVER_ERROR : Z := 500.

(** The endpoint [/chat] from the point where [get_settings()] has
    returned [settings]: the builder, and the [try] around the turn.  The
    response text is a [str] here, which is what [ChatResponse] accepts. *)
Definition chat (E : Engine) (settings : Settings) (request : ChatRequest)
    : Run Empty_set ChatResponse :=
  let agent_builder :=
    MCPAgentBuilder_init (model_name settings) (google_api_key settings) in
  try_except
    (r ⇐ run_agent E agent_builder (message request) (selected_mcps request)
           (Some (conversation_history request)) ;;
     ret {| response := r.1; tools_used := r.2 |})
    (λ e, raise (HTTPException HTTP_500_INTERNAL_SERVER_ERROR
                   ("Agent execution failed: " +:+ str_exn e))).

(** A server-sent event: the dict [{"event": ..., "data": json.dumps(...)}];
    [sse_data] stands for the JSON text of the dict it holds. *)
Record Frame := { sse_event : string; sse_data : StreamEvent }.

(** [json.dumps(event)]: of the fields of a yielded dict only the tool
    input can be a value [json.dumps] refuses; it raises [TypeError]. *)
Definition json_dumps (ev : StreamEvent) : Outcome StreamEvent :=
  match ev with
  | ToolStart _ v =>
      if json_serializable v then Returned ev
      else Raised (Exception "Object is not JSON serializable")
  | _ => Returned ev
  end.

(** The inner [event_generator] of [chat_stream]. *)
Definition event_generator (E : Engine) (agent_builder : MCPAgentBuilder)
    (request : ChatRequest) : Run Frame unit :=
  try_except
    (async_for_gen
       (stream_agent E agent_builder (message request) (selected_mcps request)
          (Some (conversation_history request)))
       (λ ev,
          d ⇐ ([], json_dumps ev) ;;
          yield {| sse_event := type_of ev; sse_data := d |}))
    (λ e,
       d ⇐ ([], json_dumps (Error (str_exn e))) ;;
       yield {| sse_event := "error"; sse_data := d |}).

(** The endpoint [/chat/stream] from the point where [get_settings()] has
    returned [settings]: the generator handed to [EventSourceResponse]. *)
Definition chat_stream (E : Engine) (settings : Settings) (request : ChatRequest)
    : Run Frame unit :=
  let agent_builder :=
    MCPAgentBuilder_init (model_name settings) (google_api_key settings) in
  event_generator E agent_builder request.

(* ===================================================================== *)
(** ** Vocabulary of the statements *)
(* ===================================================================== *)

(** The role a LangChain message plays in the conversation. *)
Definition message_role (msg : BaseMessage) : string :=
  match msg with
  | SystemMessage _ => "system"
  | HumanMessage _ => "user"
  | AIMessage _ _ => "assistant"
  | ToolMessage _ _ => "tool"
  end.

(** A conversation message read back as a history entry. *)
Definition to_chat_message (msg : BaseMessage) : ChatMessage :=
  {| role := message_role msg; content := msg_content msg |}.

(** Role and content of a history entry, and of an assembled message. *)
Definition chat_pair (msg : ChatMessage) : string * string := (role msg, content msg).

Definition message_pair (msg : BaseMessage) : string * string :=
  (message_role msg, msg_content msg).

(** The roles [_build_messages] has a branch for. *)
Definition replayed (msg : ChatMessage) : Prop :=
  role msg = "user" ∨ role msg = "assistant".

#[global] Instance replayed_dec msg : Decision (replayed msg).
Proof. unfold replayed. apply _. Defined.

(** Python's [l[1:-1]]. *)
Definition slice_1_m1 {A} (l : list A) : list A := removelast (tail l).

(** The tool names of the [tool_start] events of a stream, in order. *)
Definition started_tools (evs : list StreamEvent) : list string :=
  omap (λ ev, match ev with ToolStart t _ => Some t | _ => None end) evs.

(** [token], [tool_start] and [tool_end] events. *)
Definition nonterminal (ev : StreamEvent) : bool :=
  match ev with
  | Token _ | ToolStart _ _ | ToolEnd _ _ => true
  | Done _ | Error _ => false
  end.

(** Events that [json.dumps] accepts. *)
Definition dumpable (ev : StreamEvent) : bool :=
  match ev with
  | ToolStart _ v => json_serializable v
  | _ => true
  end.

(** How the capability under a streaming turn ends: the token stream of
    the model when no server is configured, else tool discovery followed
    by the event feed of the reasoning loop. *)
Definition capability_outcome (E : Engine) (self : MCPAgentBuilder) (user_message : string)
    (selected : list MCPType) (history : option (list ChatMessage)) : Outcome unit :=
  let mcp_config := get_mcp_server_config selected default_filesystem_path in
  if decide (mcp_config = ∅) then
    (llm_astream E (llm self)
       (assemble (_get_system_prompt [] None) history user_message)).2
  else
    match get_tools E mcp_config with
    | Raised e => Raised e
    | Returned tools =>
        let tools := enable_error_handling tools in
        (agent_astream_events E (create_react_agent (llm self) tools)
           (assemble (_get_system_prompt selected (Some (name <$> tools))) history
              user_message)).2
    end.

(** What one history entry contributes to the conversation. *)
Definition convert (msg : ChatMessage) : option BaseMessage :=
  if decide (role msg = "user") then Some (HumanMessage (content msg))
  else if decide (role msg = "assistant") then Some (AIMessage (content msg) [])
  else None.

(** The server-sent event [event_generator] makes of a yielded dict. *)
Definition frame_of (ev : StreamEvent) : Frame :=
  {| sse_event := type_of ev; sse_data := ev |}.

(** A step of [stream_agent] as it shows in [event_generator]: calls pass
    through, a yielded dict becomes its frame. *)
Definition framed (a : Act StreamEvent) : Act Frame :=
  match a with
  | Do c => Do c
  | Yield ev => Yield (frame_of ev)
  end.

(** What the calls of a turn with selection [selected] look like: the
    client is built from the resolved config with the default path, an
    agent is built from the discovered tools with error handling switched
    on. *)
Definition call_of_turn (E : Engine) (selected : list MCPType) (c : Call) : Prop :=
  let mcp_config := get_mcp_server_config selected default_filesystem_path in
  match c with
  | NewClient config => config = mcp_config ∧ mcp_config ≠ ∅
  | AgentInvoke agent _ | AgentStreamEvents agent _ =>
      ∃ tools, get_tools E mcp_config = Returned tools
               ∧ agent_tools agent = enable_error_handling tools
  | GetTools => mcp_config ≠ ∅
  | LLMInvoke _ _ | LLMStream _ _ => mcp_config = ∅
  end.

(** An event that may come before the terminal one, and that
    [json.dumps] accepts. *)
Definition body_event (ev : StreamEvent) : Prop :=
  nonterminal ev = true ∧ dumpable ev = true.

(** The settings with another value of [FILESYSTEM_ALLOWED_PATH]. *)
Definition with_filesystem_allowed_path (path : string) (settings : Settings) : Settings :=
  {| google_api_key := google_api_key settings;
     model_name := model_name settings;
     filesystem_allowed_path := path;
     host := host settings;
     port := port settings |}.

(** The tool calls recorded in a trace, in order. *)
Definition traced_calls (trace : list BaseMessage) : list ToolCall :=
  trace ≫= msg_tool_calls.

(** Response text and tool list [run_agent] reads off a trace. *)
Definition read_trace (result : option (list BaseMessage)) : string * list string :=
  let final_messages := default [] result in
  (match last final_messages with
   | Some msg => msg_content msg
   | None => "No response generated."
   end,
   call_name <$> traced_calls final_messages).

(* ===================================================================== *)
(** ** main.py: [list_mcps] *)
(* ===================================================================== *)

(** The members of [MCPType] in definition order, which is what
    [for mcp_type in MCPType] runs over. *)
Definition MCPType_members : list MCPType := [FILESYSTEM].

(** [class MCPInfo(BaseModel)]; the fields [name], [type] and [tools]
    carry a prefix here. *)
Record MCPInfo := {
  info_name : string;
  info_type : MCPType;
  url : option string;
  available : bool;
  info_tools : list string
}.

(** The body of [for mcp_type in MCPType] in [list_mcps]: the info object
    is created unavailable and without tools, and the two assignments in
    the [try] happen after discovery has answered. *)
Definition list_mcps_step (E : Engine) (mcps : list MCPInfo) (mcp_type : MCPType)
    : Run Empty_set (list MCPInfo) :=
  let config := get_mcp_server_config [mcp_type] default_filesystem_path in
  let mcp_info :=
    {| info_name := value mcp_type; info_type := mcp_type; url := None;
       available := false; info_tools := [] |} in
  mcp_info ⇐ try_except
      (call (NewClient config) (Returned ()) ;;;
       tools ⇐ call GetTools (get_tools E config) ;;
       ret {| info_name := info_name mcp_info; info_type := info_type mcp_info;
              url := url mcp_info; available := true;
              info_tools := name <$> tools |})
      (λ e,
         ret {| info_name := info_name mcp_info; info_type := info_type mcp_info;
                url := url mcp_info; available := false;
                info_tools := info_tools mcp_info |}) ;;
  ret (mcps ++ [mcp_info]).

(** The endpoint [/mcps]. *)
Definition list_mcps (E : Engine) : Run Empty_set (list MCPInfo) :=
  for_each MCPType_members (list_mcps_step E) [].

(* ===================================================================== *)
(** ** Further vocabulary *)
(* ===================================================================== *)

(** What holds of every event of a stream by its kind: a token has text,
    a tool input can be dumped, a tool output has at most 500 code
    points. *)
Definition well_formed (ev : StreamEvent) : Prop :=
  match ev with
  | Token text => text ≠ ""
  | ToolStart _ v => json_serializable v = true
  | ToolEnd _ out => code_points out ≤ 500
  | Done _ | Error _ => True
  end.

(** The text of the [token] events of a stream, in order. *)
Definition token_texts (evs : list StreamEvent) : list string :=
  omap (λ ev, match ev with Token text => Some text | _ => None end) evs.

(** The tool names of the [tool_end] events of a stream, in order. *)
Definition ended_tools (evs : list StreamEvent) : list string :=
  omap (λ ev, match ev with ToolEnd t _ => Some t | _ => None end) evs.

(** [str.join] with the empty separator. *)
Definition joined (texts : list string) : string := foldr String.append "" texts.

(** The events of the reasoning loop of a given kind. *)
Definition of_kind (kind : string) (evs : list AgentEvent) : list AgentEvent :=
  filter (λ ev, event ev = kind) evs.

(** The kinds [stream_agent] has a branch for. *)
Definition handled (ev : AgentEvent) : Prop :=
  event ev = "on_chat_model_stream" ∨ event ev = "on_tool_start"
  ∨ event ev = "on_tool_end".

#[global] Instance handled_dec ev : Decision (handled ev).
Proof. unfold handled. apply _. Defined.

(** The model a call is addressed to, for the calls that have one. *)
Definition call_llm (c : Call) : option LLM :=
  match c with
  | LLMInvoke llm _ | LLMStream llm _ => Some llm
  | AgentInvoke agent _ | AgentStreamEvents agent _ => Some (agent_model agent)
  | NewClient _ | GetTools => None
  end.

(** A stream call made into the blocking call with the same arguments. *)
Definition blocking_call (c : Call) : Call :=
  match c with
  | LLMStream llm messages => LLMInvoke llm messages
  | AgentStreamEvents agent messages => AgentInvoke agent messages
  | _ => c
  end.

(* ===================================================================== *)
(** ** Stub collaborators, for concrete runs *)
(* ===================================================================== *)

Module Stub.

Definition settings : Settings :=
  {| google_api_key := "key";
     model_name := "gemini-2.0-flash";
     filesystem_allowed_path := "/srv/data";
     host := "0.0.0.0";
     port := 8000 |}.

Definition builder : MCPAgentBuilder :=
  MCPAgentBuilder_init (model_name settings) (google_api_key settings).

(** The one tool the filesystem server of the stub offers; discovery
    hands it out with error handling off. *)
Definition list_directory : Tool :=
  {| name := "list_directory"; handle_tool_error := false |}.

Definition list_call : ToolCall :=
  {| call_name := "list_directory"; call_args := "{}"; call_id := "call_1" |}.

Definition tool_started (tool : string) (arg : PyVal) : AgentEvent :=
  {| event := "on_tool_start"; event_name := tool;
     data := {| chunk := ""; input := Some arg; output := None |} |}.

Definition tool_ended (tool : string) (result : PyVal) : AgentEvent :=
  {| event := "on_tool_end"; event_name := tool;
     data := {| chunk := ""; input := None; output := Some result |} |}.

Definition model_chunk (text : string) : AgentEvent :=
  {| event := "on_chat_model_stream"; event_name := "ChatGoogleGenerativeAI";
     data := {| chunk := text; input := None; output := None |} |}.

Definition chain_started : AgentEvent :=
  {| event := "on_chain_start"; event_name := "LangGraph";
     data := {| chunk := ""; input := None; output := None |} |}.

(** What the reasoning loop of the stub adds to the conversation: one
    [list_directory] call, its result, and the answer. *)
Definition reply : list BaseMessage :=
  [AIMessage "" [list_call];
   ToolMessage "a.txt b.txt" "call_1";
   AIMessage "a.txt, b.txt" []].

(** A reasoning loop that issues one [list_directory] call and then
    answers; a chat model that answers ["4"]. *)
Definition engine : Engine :=
  {| get_tools := λ _, Returned [list_directory];
     llm_ainvoke := λ _ _, Returned (AIMessage "4" []);
     llm_astream := λ _ _, (["4"; ""], Returned ());
     agent_ainvoke := λ _ messages, Returned (Some (messages ++ reply));
     agent_astream_events := λ _ _,
       ([chain_started;
         tool_started "list_directory" {| py_str := "<Path .>"; json_serializable := false |};
         tool_ended "list_directory" (py_of_str "a.txt b.txt");
         model_chunk "a.txt, ";
         model_chunk "b.txt"],
        Returned ()) |}.

(** The same, but the model stream and the event feed break off with an
    exception after their first items. *)
Definition failing_engine : Engine :=
  {| get_tools := get_tools engine;
     llm_ainvoke := λ _ _, Raised (Exception "quota exceeded");
     llm_astream := λ _ _, (["4"], Raised (Exception "quota exceeded"));
     agent_ainvoke := λ _ _, Raised (Exception "quota exceeded");
     agent_astream_events := λ _ _,
       ([tool_started "list_directory" (py_of_str "{}")],
        Raised (Exception "quota exceeded")) |}.

(** A reasoning loop whose model asks for a tool that no server offers;
    the trace records the request and the refusal. *)
Definition stray_call : ToolCall :=
  {| call_name := "delete_file"; call_args := "{}"; call_id := "call_1" |}.

Definition stray_engine : Engine :=
  {| get_tools := get_tools engine;
     llm_ainvoke := llm_ainvoke engine;
     llm_astream := llm_astream engine;
     agent_ainvoke := λ _ messages,
       Returned (Some (messages ++
         [AIMessage "" [stray_call];
          ToolMessage "Error: delete_file is not a valid tool" "call_1";
          AIMessage "I could not do that." []]));
     agent_astream_events := agent_astream_events engine |}.

(** A reasoning loop that hands back the conversation it was given and
    nothing more. *)
Definition echo_engine : Engine :=
  {| get_tools := get_tools engine;
     llm_ainvoke := llm_ainvoke engine;
     llm_astream := llm_astream engine;
     agent_ainvoke := λ _ messages, Returned (Some messages);
     agent_astream_events := agent_astream_events engine |}.

(** A reasoning loop whose result has no messages at all. *)
Definition silent_engine : Engine :=
  {| get_tools := get_tools engine;
     llm_ainvoke := llm_ainvoke engine;
     llm_astream := llm_astream engine;
     agent_ainvoke := λ _ _, Returned None;
     agent_astream_events := agent_astream_events engine |}.

Definition plain_request : ChatRequest :=
  {| message := "2+2?"; selected_mcps := []; conversation_history := [] |}.

Definition files_request : ChatRequest :=
  {| message := "list files";
     selected_mcps := [FILESYSTEM];
     conversation_history := [] |}.

End Stub.

(** Further stubs: tool servers that offer nothing, or cannot be reached. *)
Module Cases.

(** Discovery succeeds and finds no tool; the loop answers at once. *)
Definition bare_engine : Engine :=
  {| get_tools := λ _, Returned [];
     llm_ainvoke := llm_ainvoke Stub.engine;
     llm_astream := llm_astream Stub.engine;
     agent_ainvoke := λ _ messages,
       Returned (Some (messages ++ [AIMessage "I have no tools." []]));
     agent_astream_events := λ _ _,
       ([Stub.model_chunk "I have no tools."], Returned ()) |}.

(** Discovery raises. *)
Definition down_engine : Engine :=
  {| get_tools := λ _, Raised (Exception "npx: command not found");
     llm_ainvoke := llm_ainvoke Stub.engine;
     llm_astream := llm_astream Stub.engine;
     agent_ainvoke := agent_ainvoke Stub.engine;
     agent_astream_events := agent_astream_events Stub.engine |}.

(** The task is cancelled while the model streams: after its first chunk
    the stream raises [CancelledError], which is no [Exception]. *)
Definition cancelled_engine : Engine :=
  {| get_tools := get_tools Stub.engine;
     llm_ainvoke := llm_ainvoke Stub.engine;
     llm_astream := λ _ _, (["4"], Raised (BaseException "CancelledError" ""));
     agent_ainvoke := agent_ainvoke Stub.engine;
     agent_astream_events := agent_astream_events Stub.engine |}.

(** A request that selects an identifier the resolver does not know. *)
Definition s3_request : ChatRequest :=
  {| message := "2+2?"; selected_mcps := ["s3"]; conversation_history := [] |}.

End Cases.

(* ===================================================================== *)
(** ** Facts about [get_mcp_server_config] *)
(* ===================================================================== *)

Section config_facts.
Variable path : string.

Lemma config_fold_lookup (selected : list MCPType) (acc : gmap string ServerSpec) (k : string) :
  foldl (config_step path) acc selected !! k =
    if decide (k = "filesystem" ∧ FILESYSTEM ∈ selected)
    then Some (filesystem_spec path) else acc !! k.
Proof.
  revert acc. induction selected as [|t ts IH]; intros acc; simpl.
  - case_decide as H; [|done]. destruct H as [_ H]. by apply elem_of_nil in H.
  - rewrite IH. unfold config_step.
  destruct (decide (k = "filesystem" ∧ FILESYSTEM ∈ ts)) as [[-> Hin]|Hnot].
  + rewrite decide_True; [done|]. split; [done | by right].
  + destruct (decide (t = FILESYSTEM)) as [->|Hne].
    * destruct (decide (k = "filesystem")) as [->|Hk].
      -- rewrite lookup_insert_eq, decide_True; [done|]. split; [done | by left].
      -- rewrite lookup_insert_ne by done.
         rewrite decide_False; [done|]. by intros [? _].
    * rewrite decide_False; [done|].
      intros [-> [Heq|Hin]%elem_of_cons]; [by apply Hne | by apply Hnot].
Qed.

Lemma config_lookup (selected : list MCPType) (k : string) :
  get_mcp_server_config selected path !! k =
    if decide (k = "filesystem" ∧ FILESYSTEM ∈ selected)
    then Some (filesystem_spec path) else None.
Proof.
  unfold get_mcp_server_config. by rewrite config_fold_lookup, lookup_empty.
Qed.

Lemma config_selected (selected : list MCPType) :
  FILESYSTEM ∈ selected →
  get_mcp_server_config selected path = {["filesystem" := filesystem_spec path]}.
Proof.
  intros Hin. apply map_eq; intros k. rewrite config_lookup.
  destruct (decide (k = "filesystem")) as [->|Hk].
  - rewrite lookup_singleton_eq. by rewrite decide_True.
  - rewrite lookup_singleton_ne by done. rewrite decide_False; [done|]. by intros [? _].
Qed.

Lemma config_not_selected (selected : list MCPType) :
  FILESYSTEM ∉ selected → get_mcp_server_config selected path = ∅.
Proof.
  intros Hin. apply map_eq; intros k. rewrite config_lookup, lookup_empty.
  rewrite decide_False; [done|]. by intros [_ ?].
Qed.

Lemma config_empty_iff (selected : list MCPType) :
  get_mcp_server_config selected path = ∅ ↔ FILESYSTEM ∉ selected.
Proof.
  split; [|apply config_not_selected].
  intros Hempty Hin. rewrite (config_selected _ Hin) in Hempty.
  by apply map_non_empty_singleton in Hempty.
Qed.
End config_facts.

(* ===================================================================== *)
(** ** Concrete runs *)
(* ===================================================================== *)

Example prompt_with_tools :
  _get_system_prompt [FILESYSTEM] (Some ["read_file"; "list_directory"])
  = tooled_prompt "filesystem" "read_file, list_directory".
Proof. reflexivity. Qed.

Example prompt_without_discovered_tools :
  _get_system_prompt [FILESYSTEM] (Some []) = toolless_prompt.
Proof. reflexivity. Qed.

Example prompt_without_servers :
  _get_system_prompt [] (Some ["read_file"]) = toolless_prompt.
Proof. reflexivity. Qed.

Example build_messages_no_history :
  _build_messages "2+2?" None = [HumanMessage "2+2?"]
  ∧ _build_messages "2+2?" (Some []) = [HumanMessage "2+2?"].
Proof. split; reflexivity. Qed.

Example build_messages_history :
  _build_messages "and now?"
    (Some [{| role := "user"; content := "hi" |};
           {| role := "assistant"; content := "hello" |};
           {| role := "user"; content := "list files" |}])
  = [HumanMessage "hi"; AIMessage "hello" []; HumanMessage "list files";
     HumanMessage "and now?"].
Proof. reflexivity. Qed.

Example str_of_exceptions :
  str_exn (Exception "quota exceeded") = "quota exceeded"
  ∧ str_exn (HTTPException 500 "Agent execution failed: quota exceeded")
    = "500: Agent execution failed: quota exceeded"
  ∧ str_exn (BaseException "CancelledError" "") = "".
Proof. vm_compute. repeat split. Qed.

Example scenario_A :
  (chat Stub.engine Stub.settings Stub.plain_request).2
  = Returned {| response := "4"; tools_used := [] |}.
Proof. vm_compute. reflexivity. Qed.

Example scenario_B :
  (chat Stub.engine Stub.settings Stub.files_request).2
  = Returned {| response := "a.txt, b.txt"; tools_used := ["list_directory"] |}.
Proof. vm_compute. reflexivity. Qed.

Example scenario_C :
  sse_data <$> yields (chat_stream Stub.engine Stub.settings Stub.files_request).1
  = [ToolStart "list_directory" (py_of_str "<Path .>");
     ToolEnd "list_directory" "a.txt b.txt";
     Token "a.txt, ";
     Token "b.txt";
     Done ["list_directory"]].
Proof. vm_compute. reflexivity. Qed.

Example scenario_D :
  yields (chat_stream Stub.failing_engine Stub.settings Stub.plain_request).1
  = [{| sse_event := "token"; sse_data := Token "4" |};
     {| sse_event := "error"; sse_data := Error "quota exceeded" |}].
Proof. vm_compute. reflexivity. Qed.

(* ===================================================================== *)
(** ** Conversation assembly *)
(* ===================================================================== *)

Section assembly.
Implicit Types (msg : ChatMessage) (history : list ChatMessage) (b : BaseMessage).

Lemma history_step_convert (messages : list BaseMessage) msg :
  history_step messages msg = messages ++ option_list (convert msg).
Proof.
  unfold history_step, convert.
  repeat (destruct (decide _) as [?|?]); simpl; by rewrite ?app_nil_r.
Qed.

Lemma history_fold (messages : list BaseMessage) history :
  foldl history_step messages history = messages ++ omap convert history.
Proof.
  revert messages. induction history as [|msg history IH]; intros messages; simpl.
  - by rewrite app_nil_r.
  - rewrite IH, history_step_convert, <-app_assoc. f_equal.
    by destruct (convert msg).
Qed.

Lemma build_messages_eq (user_message : string) (h : option (list ChatMessage)) :
  _build_messages user_message h
  = omap convert (default [] h) ++ [HumanMessage user_message].
Proof.
  unfold _build_messages. destruct h as [[|msg history]|]; [done| |done].
  by rewrite history_fold.
Qed.

Lemma assemble_eq (system_prompt user_message : string) (h : option (list ChatMessage)) :
  assemble system_prompt h user_message
  = SystemMessage system_prompt
      :: omap convert (default [] h) ++ [HumanMessage user_message].
Proof. unfold assemble. by rewrite build_messages_eq. Qed.

Lemma convert_Some msg b :
  convert msg = Some b → replayed msg ∧ message_pair b = chat_pair msg.
Proof.
  unfold convert, replayed, message_pair, chat_pair.
  repeat case_decide; intros ?; simplify_eq/=; (split; [auto | congruence]).
Qed.

Lemma convert_None msg : convert msg = None → ¬ replayed msg.
Proof.
  unfold convert, replayed.
  repeat case_decide; intros ? [?|?]; by simplify_eq/=.
Qed.

Lemma converted_pairs history :
  message_pair <$> omap convert history = chat_pair <$> filter replayed history.
Proof.
  induction history as [|msg history IH]; [done|]. csimpl.
  destruct (convert msg) as [b|] eqn:Hc.
  - apply convert_Some in Hc as [Hrep Hpair].
    rewrite filter_cons_True by done. csimpl. by rewrite IH, Hpair.
  - apply convert_None in Hc. by rewrite filter_cons_False.
Qed.

(** Reading a replayed message back as a history entry and replaying it
    again gives the same message. *)
Lemma convert_round_trip msg b :
  convert msg = Some b → convert (to_chat_message b) = Some b.
Proof.
  unfold convert.
  repeat case_decide; intros ?; by simplify_eq/=.
Qed.

Lemma converted_round_trip history :
  omap convert (to_chat_message <$> omap convert history) = omap convert history.
Proof.
  induction history as [|msg history IH]; [done|]. csimpl.
  destruct (convert msg) as [b|] eqn:Hc; [|done].
  csimpl. by rewrite (convert_round_trip _ _ Hc), IH.
Qed.
End assembly.

(** C2 (as the code has it): the assembled conversation is one system
    message, then the history entries whose role is ["user"] or
    ["assistant"], in their original order and with role and content
    unchanged, then the new user message.  An entry with any other role
    contributes nothing.  For a history with only those two roles every
    entry is kept. *)
Theorem assemble_replays_user_and_assistant
    (system_prompt user_message : string) (h : option (list ChatMessage)) :
  message_pair <$> assemble system_prompt h user_message
  = ("system", system_prompt)
      :: (chat_pair <$> filter replayed (default [] h)) ++ [("user", user_message)]
  ∧ (Forall replayed (default [] h) →
     message_pair <$> assemble system_prompt h user_message
     = ("system", system_prompt)
         :: (chat_pair <$> default [] h) ++ [("user", user_message)]).
Proof.
  assert (message_pair <$> assemble system_prompt h user_message
          = ("system", system_prompt)
              :: (chat_pair <$> filter replayed (default [] h)) ++ [("user", user_message)])
    as Hall.
  { rewrite assemble_eq. simpl. f_equal.
    by rewrite fmap_app, converted_pairs. }
  split; [done|]. intros Hvalid. rewrite Hall. do 3 f_equal.
  clear Hall. induction Hvalid as [|msg l Hmsg _ IH]; [done|].
  by rewrite filter_cons_True, IH.
Qed.

Lemma assemble_replays_user_and_assistant_witness :
  message_pair <$> assemble "be brief"
      (Some [{| role := "user"; content := "hi" |};
             {| role := "assistant"; content := "hello" |}]) "bye"
  = [("system", "be brief"); ("user", "hi"); ("assistant", "hello"); ("user", "bye")].
Proof.
  apply (proj2 (assemble_replays_user_and_assistant "be brief" "bye"
    (Some [{| role := "user"; content := "hi" |};
           {| role := "assistant"; content := "hello" |}]))).
  constructor; [left; reflexivity|].
  constructor; [right; reflexivity|].
  constructor.
Defined.

(** C2 (as the claim states it) fails: a history entry with role
    ["system"] is left out of the assembled conversation. *)
Lemma assemble_drops_other_roles :
  let history := [{| role := "user"; content := "hi" |};
                  {| role := "system"; content := "answer in French" |};
                  {| role := "assistant"; content := "hello" |}] in
  message_pair <$> assemble "be brief" (Some history) "bye"
  = [("system", "be brief"); ("user", "hi"); ("assistant", "hello"); ("user", "bye")]
  ∧ message_pair <$> assemble "be brief" (Some history) "bye"
    ≠ ("system", "be brief") :: (chat_pair <$> history) ++ [("user", "bye")]
  ∧ "answer in French" ∉ (msg_content <$> assemble "be brief" (Some history) "bye").
Proof.
  simpl. split; [reflexivity|]. split; [discriminate|].
  vm_compute. intros H. by repeat (apply elem_of_cons in H as [H|H]; [discriminate H|]);
    apply elem_of_nil in H.
Qed.

(** C7: assembling again from the tail of an assembled conversation, with
    the messages between the first and the last as history and the content
    of the last as the new message, gives the same conversation. *)
Theorem assemble_idempotent_on_own_tail
    (system_prompt user_message : string) (h : option (list ChatMessage)) :
  let result := assemble system_prompt h user_message in
  ∃ final,
    last result = Some final
    ∧ assemble system_prompt (Some (to_chat_message <$> slice_1_m1 result))
        (msg_content final)
      = result.
Proof.
  simpl. exists (HumanMessage user_message). rewrite (assemble_eq _ _ h).
  split.
  - change (SystemMessage system_prompt
              :: omap convert (default [] h) ++ [HumanMessage user_message])
      with ((SystemMessage system_prompt :: omap convert (default [] h))
              ++ [HumanMessage user_message]).
    apply last_snoc.
  - unfold slice_1_m1. simpl tail. rewrite removelast_last.
    rewrite assemble_eq. simpl. by rewrite converted_round_trip.
Qed.

(* ===================================================================== *)
(** ** Server-config resolution *)
(* ===================================================================== *)

Lemma config_size (selected : list MCPType) (path : string) :
  size (get_mcp_server_config selected path)
  = if decide (FILESYSTEM ∈ selected) then 1 else 0.
Proof.
  case_decide as Hin.
  - rewrite (config_selected _ _ Hin). apply map_size_singleton.
  - rewrite (config_not_selected _ _ Hin). apply map_size_empty.
Qed.

Lemma config_same_members (selected selected' : list MCPType) (path : string) :
  (FILESYSTEM ∈ selected ↔ FILESYSTEM ∈ selected') →
  get_mcp_server_config selected path = get_mcp_server_config selected' path.
Proof.
  intros Hiff. apply map_eq; intros k. rewrite !config_lookup.
  apply decide_ext. by rewrite Hiff.
Qed.

(** C6 (as the code has it): server-config resolution maps
    ["filesystem"] to its one spec exactly when the identifier is among
    the selected ones (however often), and has no other key; the mapping
    is the same for every reordering of the input; identifiers it does not
    recognize change nothing; the empty input gives the empty mapping.
    The function is not free of effects: every call makes one
    [logger.info] call, whose text names the selection, and returns the
    mapping, which depends on the two arguments alone. *)
Theorem get_mcp_server_config_resolves (selected selected' : list MCPType) (path : string) :
  (∀ k, get_mcp_server_config selected path !! k
        = if decide (k = "filesystem" ∧ FILESYSTEM ∈ selected)
          then Some (filesystem_spec path) else None)
  ∧ size (get_mcp_server_config selected path)
    = (if decide (FILESYSTEM ∈ selected) then 1 else 0)
  ∧ (selected ≡ₚ selected' →
     get_mcp_server_config selected path = get_mcp_server_config selected' path)
  ∧ get_mcp_server_config (filter (λ t, t = FILESYSTEM) selected) path
    = get_mcp_server_config selected path
  ∧ get_mcp_server_config [] path = ∅
  ∧ (get_mcp_server_config_logged selected path).2
    = get_mcp_server_config selected path
  ∧ (get_mcp_server_config_logged selected path).1
    = [{| log_text := "[get_mcp_server_config] Building config for: ";
          log_value := selected |}].
Proof.
  split; [apply config_lookup|].
  split; [apply config_size|].
  split; [|split; [|repeat split]].
  - intros Hperm. apply config_same_members. by rewrite Hperm.
  - apply config_same_members. rewrite list_elem_of_filter.
    split; [by intros [_ ?] | by intros ?].
Qed.

(** C6 (as the claim states it) fails: resolution is not free of side
    effects.  Also for the empty selection, where the mapping is empty,
    the call has written a log record. *)
Lemma empty_selection_still_logs :
  (get_mcp_server_config_logged [] "/srv/data").2 = ∅
  ∧ (get_mcp_server_config_logged [] "/srv/data").1
    = [{| log_text := "[get_mcp_server_config] Building config for: ";
          log_value := [] |}]
  ∧ (get_mcp_server_config_logged [] "/srv/data").1 ≠ [].
Proof. repeat split. discriminate. Qed.

Lemma get_mcp_server_config_resolves_witness :
  get_mcp_server_config ["s3"; "filesystem"; "filesystem"] "/srv/data"
  = get_mcp_server_config ["filesystem"; "s3"; "filesystem"] "/srv/data".
Proof.
  refine (proj1 (proj2 (proj2 (get_mcp_server_config_resolves
           ["s3"; "filesystem"; "filesystem"] ["filesystem"; "s3"; "filesystem"]
           "/srv/data"))) _).
  apply perm_swap.
Defined.

(* ===================================================================== *)
(** ** Runs: the trace monad *)
(* ===================================================================== *)

Section runs.
Context {Y : Type}.
Implicit Types (steps : list (Act Y)).

Lemma bind_returned {A B} steps (a : A) (k : A → Run Y B) :
  bind (steps, Returned a) k = (steps ++ (k a).1, (k a).2).
Proof. unfold bind. by destruct (k a). Qed.

Lemma bind_raised {A B} steps (e : Exn) (k : A → Run Y B) :
  bind (steps, Raised e) k = (steps, Raised e).
Proof. reflexivity. Qed.

Lemma yields_app steps steps' : yields (steps ++ steps') = yields steps ++ yields steps'.
Proof. apply omap_app. Qed.

Lemma calls_app steps steps' : calls (steps ++ steps') = calls steps ++ calls steps'.
Proof. apply omap_app. Qed.

Lemma yields_Yield (ys : list Y) : yields (Yield <$> ys) = ys.
Proof. induction ys as [|y ys IH]; [done|]. unfold yields in *. csimpl. by rewrite IH. Qed.

Lemma calls_Yield (ys : list Y) : calls (Yield <$> ys) = [].
Proof. induction ys as [|y ys IH]; [done|]. unfold calls in *. by csimpl. Qed.

Lemma yields_Do (cs : list Call) : yields (Y:=Y) (Do <$> cs) = [].
Proof. induction cs as [|c cs IH]; [done|]. unfold yields in *. by csimpl. Qed.

Lemma calls_Do (cs : list Call) : calls (Y:=Y) (Do <$> cs) = cs.
Proof. induction cs as [|c cs IH]; [done|]. unfold calls in *. csimpl. by rewrite IH. Qed.

(** Whatever a prefix of a run calls, the whole run calls. *)
Lemma calls_take steps (n : nat) (c : Call) :
  c ∈ calls (take n steps) → c ∈ calls steps.
Proof.
  unfold calls. rewrite !list_elem_of_omap.
  intros (a & Ha & Hc). exists a. split; [|done].
  by eapply subseteq_take.
Qed.
End runs.

Lemma yields_framed (steps : list (Act StreamEvent)) :
  yields (framed <$> steps) = frame_of <$> yields steps.
Proof.
  unfold yields.
  induction steps as [|[c|ev] steps IH]; [done| |]; csimpl; by rewrite ?IH.
Qed.

Lemma calls_framed (steps : list (Act StreamEvent)) :
  calls (framed <$> steps) = calls steps.
Proof.
  unfold calls.
  induction steps as [|[c|ev] steps IH]; [done| |]; csimpl; by rewrite ?IH.
Qed.

(* ===================================================================== *)
(** ** The streaming turn *)
(* ===================================================================== *)

Lemma started_tools_app (evs evs' : list StreamEvent) :
  started_tools (evs ++ evs') = started_tools evs ++ started_tools evs'.
Proof. apply omap_app. Qed.

Lemma on_agent_event_shape (used : list string) (ev : AgentEvent) :
  ∃ b, on_agent_event used ev = (Yield <$> b, Returned (used ++ started_tools b))
       ∧ Forall body_event b.
Proof.
  unfold on_agent_event. repeat case_decide.
  - eexists [Token _]. split; [cbn; by rewrite app_nil_r | by repeat constructor].
  - exists []. split; [cbn; by rewrite app_nil_r | constructor].
  - eexists [ToolStart _ _]. split; [reflexivity|].
    repeat constructor. simpl.
    by destruct (json_serializable (default py_empty_dict (input (data ev)))) eqn:Hs.
  - eexists [ToolEnd _ _]. split; [cbn; by rewrite app_nil_r | by repeat constructor].
  - exists []. split; [cbn; by rewrite app_nil_r | constructor].
Qed.

Lemma for_each_agent_events (evs : list AgentEvent) (used : list string) :
  ∃ body, for_each evs on_agent_event used
          = (Yield <$> body, Returned (used ++ started_tools body))
          ∧ Forall body_event body.
Proof.
  revert used. induction evs as [|ev evs IH]; intros used.
  - exists []. split; [cbn; by rewrite app_nil_r | constructor].
  - destruct (on_agent_event_shape used ev) as (b & Hb & Hok).
    destruct (IH (used ++ started_tools b)) as (body & Hbody & Hoks).
    exists (b ++ body). split; [|by apply Forall_app_2].
    simpl. rewrite Hb, bind_returned, Hbody. simpl.
    by rewrite fmap_app, started_tools_app, app_assoc.
Qed.

Lemma for_each_chunks (chunks : list string) :
  ∃ body, for_each chunks on_chunk () = (Yield <$> body, Returned ())
          ∧ Forall body_event body ∧ started_tools body = [].
Proof.
  induction chunks as [|c chunks (body & Hbody & Hoks & Hnone)].
  - by exists [].
  - simpl. unfold on_chunk at 1. case_decide.
    + exists (Token c :: body). unfold yield. rewrite bind_returned, Hbody.
      split; [done|]. split; [|done]. by repeat constructor.
    + exists body. unfold ret. by rewrite bind_returned, Hbody.
Qed.

Lemma async_for_agent_events (evs : list AgentEvent) :
  ∃ body, (∀ ending,
             async_for (evs, ending) on_agent_event []
             = (Yield <$> body,
                match ending with
                | Returned _ => Returned (started_tools body)
                | Raised e => Raised e
                end))
          ∧ Forall body_event body.
Proof.
  destruct (for_each_agent_events evs []) as (body & Hbody & Hoks).
  exists body. split; [|done]. intros ending.
  unfold async_for. simpl fst. simpl snd. rewrite Hbody.
  destruct ending as [[]|e]; simpl; by rewrite app_nil_r.
Qed.

Lemma async_for_chunks (chunks : list string) :
  ∃ body, (∀ ending,
             async_for (chunks, ending) on_chunk ()
             = (Yield <$> body,
                match ending with
                | Returned _ => Returned ()
                | Raised e => Raised e
                end))
          ∧ Forall body_event body ∧ started_tools body = [].
Proof.
  destruct (for_each_chunks chunks) as (body & Hbody & Hoks & Hnone).
  exists body. split; [|done]. intros ending.
  unfold async_for. simpl fst. simpl snd. rewrite Hbody.
  destruct ending as [[]|e]; simpl; by rewrite app_nil_r.
Qed.

#[local] Arguments async_for : simpl never.

Section streaming.
Variables (E : Engine) (self : MCPAgentBuilder).
Variables (user_message : string) (selected : list MCPType).
Variable history : option (list ChatMessage).

(** The shape of every run of [stream_agent]: its calls, then the
    events before the terminal one, then [done] with the started tools
    if and only if the capability below ended without an exception. *)
Lemma stream_agent_shape :
  ∃ (cs : list Call) (body : list StreamEvent),
    stream_agent E self user_message selected history
    = ((Do <$> cs) ++ (Yield <$> body)
         ++ match capability_outcome E self user_message selected history with
            | Returned _ => [Yield (Done (started_tools body))]
            | Raised _ => []
            end,
       capability_outcome E self user_message selected history)
    ∧ Forall body_event body
    ∧ Forall (call_of_turn E selected) cs.
Proof.
  unfold stream_agent, capability_outcome.
  set (cfg := get_mcp_server_config selected default_filesystem_path).
  destruct (decide (cfg = ∅)) as [Hcfg|Hcfg].
  - set (messages := assemble _ _ _).
    destruct (llm_astream E (llm self) messages) as [chunks ending] eqn:Hsrc.
    destruct (async_for_chunks chunks) as (body & Hrun & Hoks & Hnone).
    exists [LLMStream (llm self) messages], body.
    split; [|split; [done | by repeat constructor]].
    simpl. rewrite Hrun, Hnone.
    destruct ending as [[]|e]; simpl; by rewrite ?app_nil_r.
  - destruct (get_tools E cfg) as [tools|e] eqn:Htools.
    + simpl.
      set (tools' := enable_error_handling tools).
      set (agent := create_react_agent (llm self) tools').
      set (messages := assemble _ _ _).
      destruct (agent_astream_events E agent messages) as [evs ending] eqn:Hsrc.
      destruct (async_for_agent_events evs) as (body & Hrun & Hoks).
      exists [NewClient cfg; GetTools; AgentStreamEvents agent messages], body.
      split; [|split; [done|]].
      * rewrite Hrun.
        destruct ending as [[]|e]; simpl; by rewrite ?app_nil_r.
      * repeat constructor; simpl; try done. by exists tools.
    + exists [NewClient cfg; GetTools], [].
      split; [done|]. split; [constructor | by repeat constructor].
Qed.
(** What a consumer of [stream_agent] reads. *)
Lemma stream_agent_yields :
  ∃ body,
    yields (stream_agent E self user_message selected history).1
    = body ++ match capability_outcome E self user_message selected history with
              | Returned _ => [Done (started_tools body)]
              | Raised _ => []
              end
    ∧ Forall body_event body.
Proof.
  destruct stream_agent_shape as (cs & body & -> & Hoks & _).
  exists body. split; [|done]. simpl fst.
  rewrite !yields_app, yields_Do, yields_Yield. simpl.
  by destruct (capability_outcome _ _ _ _ _).
Qed.

Lemma stream_agent_calls :
  Forall (call_of_turn E selected)
    (calls (stream_agent E self user_message selected history).1).
Proof.
  destruct stream_agent_shape as (cs & body & -> & _ & Hcs). simpl fst.
  rewrite !calls_app, calls_Do, calls_Yield. simpl.
  destruct (capability_outcome _ _ _ _ _); simpl; by rewrite app_nil_r.
Qed.

Lemma stream_agent_ending :
  (stream_agent E self user_message selected history).2
  = capability_outcome E self user_message selected history.
Proof. by destruct stream_agent_shape as (cs & body & -> & _). Qed.
End streaming.

(* ===================================================================== *)
(** ** The SSE generator of [chat_stream] *)
(* ===================================================================== *)

Lemma json_dumps_dumpable (ev : StreamEvent) :
  dumpable ev = true → json_dumps ev = Returned ev.
Proof. destruct ev; simpl; try done. by intros ->. Qed.

Lemma drive_framed (steps : list (Act StreamEvent)) :
  Forall (λ ev, dumpable ev = true) (yields steps) →
  drive steps (λ ev, d ⇐ ([], json_dumps ev) ;;
                     yield {| sse_event := type_of ev; sse_data := d |})
  = (framed <$> steps, Returned ()).
Proof.
  induction steps as [|[c|ev] steps IH]; intros Hok; [done| |].
  - cbn [drive]. rewrite (IH Hok). reflexivity.
  - apply Forall_cons in Hok as [Hev Hok].
    cbn [drive]. rewrite (json_dumps_dumpable _ Hev), (IH Hok). reflexivity.
Qed.

Section sse.
Variables (E : Engine) (agent_builder : MCPAgentBuilder) (request : ChatRequest).

Let inner : Run StreamEvent unit :=
  stream_agent E agent_builder (message request) (selected_mcps request)
    (Some (conversation_history request)).

Let outcome : Outcome unit :=
  capability_outcome E agent_builder (message request) (selected_mcps request)
    (Some (conversation_history request)).

Lemma inner_dumpable : Forall (λ ev, dumpable ev = true) (yields inner.1).
Proof.
  destruct (stream_agent_yields E agent_builder (message request)
              (selected_mcps request) (Some (conversation_history request)))
    as (body & Hy & Hoks).
  unfold inner. rewrite Hy. apply Forall_app_2.
  - eapply Forall_impl; [exact Hoks|]. by intros ev [_ ?].
  - destruct (capability_outcome _ _ _ _ _); by repeat constructor.
Qed.

(** [event_generator] frames what [stream_agent] does; if that raised an
    [Exception] it adds one error frame and ends normally, and if that
    raised anything else the exception goes on to the consumer. *)
Lemma event_generator_shape :
  event_generator E agent_builder request
  = ((framed <$> inner.1)
       ++ match outcome with
          | Returned _ => []
          | Raised e =>
              if is_exception e then [Yield (frame_of (Error (str_exn e)))] else []
          end,
     match outcome with
     | Returned _ => Returned ()
     | Raised e => if is_exception e then Returned () else Raised e
     end).
Proof.
  unfold event_generator, async_for_gen. fold inner.
  rewrite (drive_framed _ inner_dumpable).
  unfold outcome. rewrite <-stream_agent_ending. fold inner.
  destruct inner.2 as [[]|e]; simpl; rewrite ?app_nil_r; [done|].
  destruct (is_exception e); simpl; by rewrite ?app_nil_r.
Qed.

Lemma event_generator_calls :
  calls (event_generator E agent_builder request).1 = calls inner.1.
Proof.
  rewrite event_generator_shape. simpl fst.
  rewrite calls_app, calls_framed.
  destruct outcome as [|e]; [|destruct (is_exception e)]; simpl; by rewrite app_nil_r.
Qed.
End sse.

(** C1 (as the code has it): what the consumer of a streaming turn reads
    is a run of [token], [tool_start] and [tool_end] frames, followed by
    exactly one terminal frame, which is last, when the completion, the
    tool discovery or the reasoning loop below ends on its own ([done]) or
    raises an instance of [Exception] ([error] with its text); the
    generator itself then ends without an exception.  When what is raised
    is not an instance of [Exception], no terminal frame follows and the
    exception reaches the consumer as it is. *)
Theorem chat_stream_terminal_event
    (E : Engine) (settings : Settings) (request : ChatRequest) :
  let agent_builder :=
    MCPAgentBuilder_init (model_name settings) (google_api_key settings) in
  let outcome :=
    capability_outcome E agent_builder (message request) (selected_mcps request)
      (Some (conversation_history request)) in
  let run := chat_stream E settings request in
  ∃ body : list StreamEvent,
    Forall (λ ev, type_of ev ∈ ["token"; "tool_start"; "tool_end"]) body
    ∧ match outcome with
      | Returned _ =>
          run.2 = Returned ()
          ∧ yields run.1
            = (frame_of <$> body)
                ++ [{| sse_event := "done"; sse_data := Done (started_tools body) |}]
      | Raised e =>
          if is_exception e
          then run.2 = Returned ()
               ∧ yields run.1
                 = (frame_of <$> body)
                     ++ [{| sse_event := "error"; sse_data := Error (str_exn e) |}]
          else run.2 = Raised e ∧ yields run.1 = frame_of <$> body
      end.
Proof.
  intros agent_builder outcome run. unfold run, chat_stream. fold agent_builder.
  rewrite event_generator_shape. simpl fst. simpl snd.
  destruct (stream_agent_yields E agent_builder (message request)
              (selected_mcps request) (Some (conversation_history request)))
    as (body & Hy & Hoks).
  exists body. split.
  { eapply Forall_impl; [exact Hoks|]. intros ev [Hnt _].
    destruct ev; try done; [left | right; left | do 2 right; left]. }
  rewrite yields_app, yields_framed, Hy. fold outcome.
  destruct outcome as [[]|e].
  - split; [done|].
    change (yields (Y:=Frame) []) with (@nil Frame). by rewrite fmap_app, app_nil_r.
  - destruct (is_exception e); (split; [done|]); by rewrite ?app_nil_r.
Qed.

(** C1 (as the claim states it) fails: the task is cancelled while the
    model streams.  After the one token frame the consumer gets the
    [CancelledError] itself, and no terminal frame. *)
Lemma cancelled_stream_has_no_terminal_event :
  let run := chat_stream Cases.cancelled_engine Stub.settings Stub.plain_request in
  yields run.1 = [{| sse_event := "token"; sse_data := Token "4" |}]
  ∧ run.2 = Raised (BaseException "CancelledError" "").
Proof. vm_compute. split; reflexivity. Qed.

(** C4: when a streaming turn ends in [done], the list it carries is the
    list of tool names of the [tool_start] events yielded before it, in
    the same order. *)
Theorem done_lists_the_started_tools
    (E : Engine) (self : MCPAgentBuilder) (user_message : string)
    (selected : list MCPType) (history : option (list ChatMessage))
    (evs : list StreamEvent) (used : list string) :
  yields (stream_agent E self user_message selected history).1 = evs ++ [Done used] →
  used = started_tools evs.
Proof.
  destruct (stream_agent_yields E self user_message selected history)
    as (body & -> & Hoks).
  destruct (capability_outcome _ _ _ _ _) as [[]|e]; intros Heq.
  - apply app_inj_tail in Heq as [-> [= ->]]. done.
  - rewrite app_nil_r in Heq. subst body.
    apply Forall_app in Hoks as [_ Hlast].
    apply Forall_cons in Hlast as [[Hnt _] _]. done.
Qed.

Lemma done_lists_the_started_tools_witness :
  ["list_directory"]
  = started_tools
      [ToolStart "list_directory" (py_of_str "<Path .>");
       ToolEnd "list_directory" "a.txt b.txt";
       Token "a.txt, ";
       Token "b.txt"].
Proof.
  apply (done_lists_the_started_tools Stub.engine Stub.builder "list files"
           [FILESYSTEM] None).
  vm_compute. reflexivity.
Defined.


(* ===================================================================== *)
(** ** The blocking turn *)
(* ===================================================================== *)

Lemma collect_tool_calls_eq (used : list string) (trace : list BaseMessage) :
  collect_tool_calls used trace = used ++ (call_name <$> traced_calls trace).
Proof.
  unfold collect_tool_calls, traced_calls. revert used.
  induction trace as [|msg trace IH]; intros used; csimpl.
  - by rewrite app_nil_r.
  - rewrite IH, fmap_app, app_assoc. f_equal.
    generalize (msg_tool_calls msg) as tcs. clear. intros tcs. revert used.
    induction tcs as [|tc tcs IH]; intros used; csimpl.
    + by rewrite app_nil_r.
    + rewrite IH. by rewrite <-app_assoc.
Qed.

Lemma enable_error_handling_names (tools : list Tool) :
  name <$> enable_error_handling tools = name <$> tools.
Proof.
  unfold enable_error_handling. rewrite <-list_fmap_compose.
  by apply list_fmap_ext.
Qed.

Lemma enable_error_handling_flags (tools : list Tool) :
  Forall (λ tool, handle_tool_error tool = true) (enable_error_handling tools).
Proof. unfold enable_error_handling. by apply Forall_fmap, Forall_true. Qed.

Section blocking.
Variables (E : Engine) (self : MCPAgentBuilder).
Variables (user_message : string) (selected : list MCPType).
Variable history : option (list ChatMessage).

Let mcp_config := get_mcp_server_config selected default_filesystem_path.

(** The run of a turn with no server configured. *)
Lemma run_agent_plain :
  mcp_config = ∅ →
  let messages := assemble (_get_system_prompt [] None) history user_message in
  run_agent E self user_message selected history
  = ([Do (LLMInvoke (llm self) messages)],
     match llm_ainvoke E (llm self) messages with
     | Returned response => Returned (msg_content response, [])
     | Raised e => Raised e
     end).
Proof.
  intros Hcfg messages. unfold run_agent. fold mcp_config.
  rewrite decide_True by done. fold messages.
  by destruct (llm_ainvoke E (llm self) messages).
Qed.

(** The run of a turn with a server configured, up to discovery. *)
Lemma run_agent_discovery_fails (e : Exn) :
  mcp_config ≠ ∅ →
  get_tools E mcp_config = Raised e →
  run_agent E self user_message selected history
  = ([Do (NewClient mcp_config); Do GetTools], Raised e).
Proof.
  intros Hcfg Htools. unfold run_agent. fold mcp_config.
  rewrite decide_False by done. by rewrite Htools.
Qed.

(** The run of a turn with a server configured, once tools are found. *)
Lemma run_agent_tooled (tools : list Tool) :
  mcp_config ≠ ∅ →
  get_tools E mcp_config = Returned tools →
  let tools' := enable_error_handling tools in
  let agent := create_react_agent (llm self) tools' in
  let messages :=
    assemble (_get_system_prompt selected (Some (name <$> tools'))) history
      user_message in
  run_agent E self user_message selected history
  = ([Do (NewClient mcp_config); Do GetTools; Do (AgentInvoke agent messages)],
     match agent_ainvoke E agent messages with
     | Returned result => Returned (read_trace result)
     | Raised e => Raised e
     end).
Proof.
  intros Hcfg Htools tools' agent messages. unfold run_agent. fold mcp_config.
  rewrite decide_False by done. rewrite Htools. simpl.
  fold tools'. fold agent. fold messages.
  destruct (agent_ainvoke E agent messages) as [result|e]; [|done].
  simpl. unfold read_trace. by rewrite collect_tool_calls_eq.
Qed.

Lemma run_agent_steps :
  ∃ cs, (run_agent E self user_message selected history).1 = Do <$> cs
        ∧ Forall (call_of_turn E selected) cs.
Proof.
  destruct (decide (mcp_config = ∅)) as [Hcfg|Hcfg].
  - rewrite (run_agent_plain Hcfg). eexists [_]. split; [done|].
    by repeat constructor.
  - destruct (get_tools E mcp_config) as [tools|e] eqn:Htools.
    + rewrite (run_agent_tooled _ Hcfg Htools). eexists [_; _; _]. split; [done|].
      repeat constructor; try done. by exists tools.
    + rewrite (run_agent_discovery_fails _ Hcfg Htools). eexists [_; _].
      split; [done|]. by repeat constructor.
Qed.

Lemma run_agent_calls :
  Forall (call_of_turn E selected)
    (calls (run_agent E self user_message selected history).1).
Proof. destruct run_agent_steps as (cs & -> & Hcs). by rewrite calls_Do. Qed.
End blocking.

Lemma chat_calls (E : Engine) (settings : Settings) (request : ChatRequest) :
  (chat E settings request).1
  = (run_agent E (MCPAgentBuilder_init (model_name settings) (google_api_key settings))
       (message request) (selected_mcps request)
       (Some (conversation_history request))).1.
Proof.
  unfold chat. destruct (run_agent _ _ _ _ _) as [steps [[r used]|e]]; simpl.
  - by rewrite app_nil_r.
  - destruct (is_exception e); simpl; by rewrite ?app_nil_r.
Qed.

(** C3 (as the code has it): in a blocking turn with a server configured
    the returned tool list is the list of names of the tool calls recorded
    in the trace of the reasoning loop, in order, taken as they are.  It
    stays inside the discovered tool set exactly as far as the trace
    does. *)
Theorem tools_used_are_the_traced_calls
    (E : Engine) (self : MCPAgentBuilder) (user_message : string)
    (selected : list MCPType) (history : option (list ChatMessage))
    (tools : list Tool) (result : option (list BaseMessage)) :
  let mcp_config := get_mcp_server_config selected default_filesystem_path in
  let tools' := enable_error_handling tools in
  let agent := create_react_agent (llm self) tools' in
  let messages :=
    assemble (_get_system_prompt selected (Some (name <$> tools'))) history
      user_message in
  let used := call_name <$> traced_calls (default [] result) in
  mcp_config ≠ ∅ →
  get_tools E mcp_config = Returned tools →
  agent_ainvoke E agent messages = Returned result →
  (run_agent E self user_message selected history).2
  = Returned ((read_trace result).1, used)
  ∧ (Forall (λ tc, call_name tc ∈ name <$> tools) (traced_calls (default [] result)) →
     Forall (λ tool_name, tool_name ∈ name <$> tools) used).
Proof.
  intros mcp_config tools' agent messages used Hcfg Htools Hrun.
  rewrite (run_agent_tooled E self user_message selected history tools Hcfg Htools).
  fold tools' agent messages. rewrite Hrun. split; [done|].
  intros Hin. unfold used. by apply Forall_fmap.
Qed.

Lemma tools_used_are_the_traced_calls_witness :
  Forall (λ tool_name, tool_name ∈ ["list_directory"]) ["list_directory"].
Proof.
  refine (proj2 (tools_used_are_the_traced_calls Stub.engine Stub.builder
                   "list files" [FILESYSTEM] None [Stub.list_directory]
                   (Some (assemble
                            (_get_system_prompt [FILESYSTEM] (Some ["list_directory"]))
                            None "list files" ++ Stub.reply))
                   _ _ _) _).
  - by vm_compute.
  - reflexivity.
  - reflexivity.
  - vm_compute. repeat constructor.
Defined.

(** C3 (as the claim states it) fails: the model asks for a tool that
    discovery did not return; the request is in the trace and its name is
    in the returned list. *)
Lemma undiscovered_tool_is_reported :
  get_tools Stub.stray_engine (get_mcp_server_config [FILESYSTEM] default_filesystem_path)
  = Returned [Stub.list_directory]
  ∧ (run_agent Stub.stray_engine Stub.builder "remove a.txt" [FILESYSTEM] None).2
    = Returned ("I could not do that.", ["delete_file"])
  ∧ "delete_file" ∉ name <$> [Stub.list_directory].
Proof.
  split; [reflexivity|]. split; [by vm_compute|].
  vm_compute. intros H. apply elem_of_cons in H as [H|H]; [discriminate H|].
  by apply elem_of_nil in H.
Qed.

(** C8 (as the code has it): in a blocking turn with a server configured
    the response text is the fallback ["No response generated."] when the
    trace of the reasoning loop has no message at all, and the call
    returns; when the trace has messages, the text is the content of the
    last one, of whatever kind. *)
Theorem fallback_is_for_the_empty_trace
    (E : Engine) (self : MCPAgentBuilder) (user_message : string)
    (selected : list MCPType) (history : option (list ChatMessage))
    (tools : list Tool) (result : option (list BaseMessage)) :
  let mcp_config := get_mcp_server_config selected default_filesystem_path in
  let tools' := enable_error_handling tools in
  let agent := create_react_agent (llm self) tools' in
  let messages :=
    assemble (_get_system_prompt selected (Some (name <$> tools'))) history
      user_message in
  mcp_config ≠ ∅ →
  get_tools E mcp_config = Returned tools →
  agent_ainvoke E agent messages = Returned result →
  (default [] result = [] →
   (run_agent E self user_message selected history).2
   = Returned ("No response generated.", []))
  ∧ (∀ msg, last (default [] result) = Some msg →
     (run_agent E self user_message selected history).2
     = Returned (msg_content msg, call_name <$> traced_calls (default [] result))).
Proof.
  intros mcp_config tools' agent messages Hcfg Htools Hrun.
  rewrite (run_agent_tooled E self user_message selected history tools Hcfg Htools).
  fold tools' agent messages. rewrite Hrun. unfold read_trace. split.
  - by intros ->.
  - by intros msg ->.
Qed.

Lemma fallback_is_for_the_empty_trace_witness :
  (run_agent Stub.silent_engine Stub.builder "list files" [FILESYSTEM] None).2
  = Returned ("No response generated.", []).
Proof.
  refine (proj1 (fallback_is_for_the_empty_trace Stub.silent_engine Stub.builder
                   "list files" [FILESYSTEM] None [Stub.list_directory] None _ _ _) _).
  - by vm_compute.
  - reflexivity.
  - reflexivity.
  - reflexivity.
Defined.

(** C8 (as the claim states it) fails: the loop hands back the input
    conversation, which has no assistant message; the response is the
    content of its last message, not the fallback. *)
Lemma trace_without_assistant_message :
  let tools' := enable_error_handling [Stub.list_directory] in
  let messages :=
    assemble (_get_system_prompt [FILESYSTEM] (Some (name <$> tools'))) None
      "list files" in
  agent_ainvoke Stub.echo_engine (create_react_agent (llm Stub.builder) tools') messages
  = Returned (Some messages)
  ∧ message_role <$> messages = ["system"; "user"]
  ∧ (run_agent Stub.echo_engine Stub.builder "list files" [FILESYSTEM] None).2
    = Returned ("list files", [])
  ∧ "list files" ≠ "No response generated.".
Proof. vm_compute. repeat split; (reflexivity || discriminate). Qed.

(* ===================================================================== *)
(** ** What the turn hands to its collaborators *)
(* ===================================================================== *)

Lemma turn_client_config (E : Engine) (selected : list MCPType)
    (config : gmap string ServerSpec) :
  call_of_turn E selected (NewClient config) →
  config = {["filesystem" := filesystem_spec "/Users/mohitpaddhariya"]}.
Proof.
  intros [-> Hne]. apply config_selected.
  destruct (decide (FILESYSTEM ∈ selected)) as [|Hnot]; [done|].
  by apply config_not_selected with (path := default_filesystem_path) in Hnot.
Qed.

(** C9: the config a turn builds its tool client from never holds
    anything but the filesystem spec with the path
    ["/Users/mohitpaddhariya"], in the blocking and in the streaming turn,
    and both turns run the same whatever [FILESYSTEM_ALLOWED_PATH] is set
    to. *)
Theorem filesystem_path_is_the_default
    (E : Engine) (settings : Settings) (request : ChatRequest)
    (config : gmap string ServerSpec) (path : string) :
  (NewClient config ∈ calls (chat E settings request).1
   ∨ NewClient config ∈ calls (chat_stream E settings request).1 →
   config = {["filesystem" := filesystem_spec "/Users/mohitpaddhariya"]}
   ∧ args <$> config !! "filesystem"
     = Some ["-y"; "@modelcontextprotocol/server-filesystem"; "/Users/mohitpaddhariya"])
  ∧ chat E (with_filesystem_allowed_path path settings) request
    = chat E settings request
  ∧ chat_stream E (with_filesystem_allowed_path path settings) request
    = chat_stream E settings request.
Proof.
  split; [|split; reflexivity].
  intros Hin.
  assert (call_of_turn E (selected_mcps request) (NewClient config)) as Hcall.
  { destruct Hin as [Hin|Hin].
    - rewrite chat_calls in Hin.
      eapply Forall_forall in Hin; [exact Hin | apply run_agent_calls].
    - unfold chat_stream in Hin. rewrite event_generator_calls in Hin.
      eapply Forall_forall in Hin; [exact Hin | apply stream_agent_calls]. }
  apply turn_client_config in Hcall as ->. split; [done|].
  by rewrite lookup_singleton_eq.
Qed.

Lemma filesystem_path_is_the_default_witness :
  get_mcp_server_config [FILESYSTEM] default_filesystem_path
  = {["filesystem" := filesystem_spec "/Users/mohitpaddhariya"]}.
Proof.
  refine (proj1 (proj1 (filesystem_path_is_the_default Stub.engine Stub.settings
                          Stub.files_request _ "/srv/data") _)).
  left. vm_compute. left.
Defined.


(* ===================================================================== *)
(** ** Strings *)
(* ===================================================================== *)

Lemma append_nil_r (s : string) : s +:+ "" = s.
Proof.
  induction s as [|c s IH]; [done|].
  change (String c s +:+ "") with (String c (s +:+ "")). by rewrite IH.
Qed.

Lemma append_assoc (s1 s2 s3 : string) : (s1 +:+ s2) +:+ s3 = s1 +:+ (s2 +:+ s3).
Proof.
  induction s1 as [|c s1 IH]; [done|].
  change (String c (s1 +:+ s2) +:+ s3 = String c (s1 +:+ (s2 +:+ s3))).
  change (String c ((s1 +:+ s2) +:+ s3) = String c (s1 +:+ (s2 +:+ s3))).
  by rewrite IH.
Qed.

Lemma joined_app (l1 l2 : list string) : joined (l1 ++ l2) = joined l1 +:+ joined l2.
Proof.
  unfold joined. induction l1 as [|s l1 IH]; [done|].
  rewrite <-app_comm_cons, !foldr_cons, IH. symmetry. apply append_assoc.
Qed.

Lemma joined_nonempty (l : list string) : joined (filter (λ s, s ≠ "") l) = joined l.
Proof.
  induction l as [|s l IH]; [done|].
  destruct (decide (s = "")) as [->|Hs].
  - rewrite filter_cons_False by (by intros ?). exact IH.
  - rewrite filter_cons_True by done. unfold joined in *.
    by rewrite !foldr_cons, IH.
Qed.

Lemma take_code_points_count (n : nat) (s : string) :
  code_points (take_code_points n s) ≤ n.
Proof.
  revert n. induction s as [|c s IH]; intros n; simpl; [lia|].
  destruct (is_continuation c) eqn:Hc; simpl.
  - rewrite Hc. apply IH.
  - destruct n as [|n]; simpl; [lia|]. rewrite Hc. specialize (IH n). lia.
Qed.



Example take_code_points_two_bytes :
  take_code_points 2 "héllo" = "hé"
  ∧ String.length "hé" = 3 ∧ code_points "hé" = 2.
Proof. repeat split. Qed.

(* ===================================================================== *)
(** ** The loop over the event feed, event by event *)
(* ===================================================================== *)

Lemma of_kind_cons (kind : string) (ev : AgentEvent) (evs : list AgentEvent) :
  of_kind kind (ev :: evs) = of_kind kind [ev] ++ of_kind kind evs.
Proof. unfold of_kind. by rewrite <-filter_app. Qed.

Lemma token_texts_app (evs evs' : list StreamEvent) :
  token_texts (evs ++ evs') = token_texts evs ++ token_texts evs'.
Proof. apply omap_app. Qed.

Lemma ended_tools_app (evs evs' : list StreamEvent) :
  ended_tools (evs ++ evs') = ended_tools evs ++ ended_tools evs'.
Proof. apply omap_app. Qed.

(** What one event of the feed turns into. *)
Lemma on_agent_event_full (used : list string) (ev : AgentEvent) :
  ∃ b, on_agent_event used ev = (Yield <$> b, Returned (used ++ started_tools b))
       ∧ Forall well_formed b
       ∧ Forall (λ out, nonterminal out = true) b
       ∧ started_tools b = event_name <$> of_kind "on_tool_start" [ev]
       ∧ ended_tools b = event_name <$> of_kind "on_tool_end" [ev]
       ∧ joined (token_texts b)
         = joined ((chunk ∘ data) <$> of_kind "on_chat_model_stream" [ev])
       ∧ (if decide (handled ev) then length b ≤ 1 else b = []).
Proof.
  unfold on_agent_event, of_kind. rewrite !filter_cons, !filter_nil.
  destruct (decide (event ev = "on_chat_model_stream")) as [H1|H1];
    destruct (decide (event ev = "on_tool_start")) as [H2|H2];
    destruct (decide (event ev = "on_tool_end")) as [H3|H3];
    try congruence;
    (destruct (decide (handled ev)) as [Hh|Hh];
       [|try (exfalso; apply Hh; unfold handled; tauto)]);
    try (exfalso; unfold handled in Hh; tauto).
  - destruct (decide (chunk (data ev) ≠ "")) as [Hc|Hc].
    + eexists [Token _].
      repeat split; try done; try (by repeat constructor);
        try (cbn; by rewrite ?app_nil_r); try (simpl; lia).
    + apply dec_stable in Hc. exists []. cbn. rewrite Hc.
      repeat split; try done; try (by rewrite ?app_nil_r); try lia.
  - eexists [ToolStart _ _].
    repeat split; try done; try (by repeat constructor); try (simpl; lia).
    constructor; [|constructor]. simpl.
    by destruct (json_serializable (default py_empty_dict (input (data ev)))) eqn:Hs.
  - eexists [ToolEnd _ _].
    repeat split; try done; try (by repeat constructor);
      try (cbn; by rewrite ?app_nil_r); try (simpl; lia).
    constructor; [apply take_code_points_count | constructor].
  - exists []. repeat split; try done. cbn. by rewrite app_nil_r.
Qed.

Lemma for_each_agent_events_full (evs : list AgentEvent) (used : list string) :
  ∃ body, for_each evs on_agent_event used
          = (Yield <$> body, Returned (used ++ started_tools body))
          ∧ Forall well_formed body
          ∧ Forall (λ out, nonterminal out = true) body
          ∧ started_tools body = event_name <$> of_kind "on_tool_start" evs
          ∧ ended_tools body = event_name <$> of_kind "on_tool_end" evs
          ∧ joined (token_texts body)
            = joined ((chunk ∘ data) <$> of_kind "on_chat_model_stream" evs)
          ∧ length body ≤ length (filter handled evs).
Proof.
  revert used. induction evs as [|ev evs IH]; intros used.
  - exists []. repeat split; try done. cbn. by rewrite app_nil_r.
  - destruct (on_agent_event_full used ev)
      as (b & Hb & Hwf & Hnt & Hst & Hen & Htx & Hlen).
    destruct (IH (used ++ started_tools b))
      as (body & Hbody & Hwfs & Hnts & Hsts & Hens & Htxs & Hlens).
    exists (b ++ body).
    rewrite (of_kind_cons "on_tool_start"), (of_kind_cons "on_tool_end"),
      (of_kind_cons "on_chat_model_stream"), !fmap_app, !joined_app.
    rewrite started_tools_app, ended_tools_app, token_texts_app, joined_app.
    rewrite Hst, Hen, Htx, Hsts, Hens, Htxs.
    repeat split; try done; try (by apply Forall_app_2).
    + rewrite <-Hst, <-Hsts. simpl. rewrite Hb, bind_returned, Hbody. simpl.
      by rewrite app_assoc.
    + rewrite length_app, filter_cons.
      destruct (decide (handled ev)) as [Hh|Hh]; [simpl; lia|].
      subst b. simpl. lia.
Qed.

Lemma Yield_fmap_inj {Y} (b b' : list Y) : Yield <$> b = Yield <$> b' → b = b'.
Proof. intros Heq. apply (f_equal yields) in Heq. by rewrite !yields_Yield in Heq. Qed.

Lemma for_each_chunks_exact (chunks : list string) :
  for_each chunks on_chunk ()
  = (Yield <$> (Token <$> filter (λ text, text ≠ "") chunks), Returned ()).
Proof.
  induction chunks as [|c chunks IH]; [done|].
  simpl. unfold on_chunk at 1. rewrite filter_cons.
  destruct (decide (c ≠ "")) as [Hc|Hc].
  - unfold yield. by rewrite bind_returned, IH.
  - unfold ret. by rewrite bind_returned, IH.
Qed.

Section streaming_paths.
Variables (E : Engine) (self : MCPAgentBuilder).
Variables (user_message : string) (selected : list MCPType).
Variable history : option (list ChatMessage).

Let mcp_config := get_mcp_server_config selected default_filesystem_path.

(** The run of a streaming turn with no server configured. *)
Lemma stream_agent_plain (chunks : list string) (ending : Outcome unit) :
  mcp_config = ∅ →
  let messages := assemble (_get_system_prompt [] None) history user_message in
  llm_astream E (llm self) messages = (chunks, ending) →
  stream_agent E self user_message selected history
  = (Do (LLMStream (llm self) messages)
       :: (Yield <$> (Token <$> filter (λ text, text ≠ "") chunks))
       ++ match ending with
          | Returned _ => [Yield (Done [])]
          | Raised _ => []
          end,
     ending).
Proof.
  intros Hcfg messages Hsrc. unfold stream_agent. fold mcp_config.
  rewrite decide_True by done. fold messages. rewrite Hsrc.
  unfold async_for. simpl fst. simpl snd. rewrite for_each_chunks_exact.
  destruct ending as [[]|e]; simpl; by rewrite ?app_nil_r.
Qed.

(** The run of a streaming turn whose discovery raises. *)
Lemma stream_agent_discovery_fails (e : Exn) :
  mcp_config ≠ ∅ →
  get_tools E mcp_config = Raised e →
  stream_agent E self user_message selected history
  = ([Do (NewClient mcp_config); Do GetTools], Raised e).
Proof.
  intros Hcfg Htools. unfold stream_agent. fold mcp_config.
  rewrite decide_False by done. by rewrite Htools.
Qed.

(** The run of a streaming turn once tools are found. *)
Lemma stream_agent_tooled (tools : list Tool) (evs : list AgentEvent)
    (ending : Outcome unit) :
  mcp_config ≠ ∅ →
  get_tools E mcp_config = Returned tools →
  let tools' := enable_error_handling tools in
  let agent := create_react_agent (llm self) tools' in
  let messages :=
    assemble (_get_system_prompt selected (Some (name <$> tools'))) history
      user_message in
  agent_astream_events E agent messages = (evs, ending) →
  ∃ body,
    for_each evs on_agent_event [] = (Yield <$> body, Returned (started_tools body))
    ∧ stream_agent E self user_message selected history
      = ([Do (NewClient mcp_config); Do GetTools;
          Do (AgentStreamEvents agent messages)]
           ++ (Yield <$> body)
           ++ match ending with
              | Returned _ => [Yield (Done (started_tools body))]
              | Raised _ => []
              end,
         ending).
Proof.
  intros Hcfg Htools tools' agent messages Hsrc.
  destruct (for_each_agent_events evs []) as (body & Hbody & _).
  exists body. split; [done|].
  unfold stream_agent. fold mcp_config.
  rewrite decide_False by done. rewrite Htools. simpl.
  fold tools'. fold agent. fold messages. rewrite Hsrc.
  unfold async_for. simpl fst. simpl snd. rewrite Hbody.
  destruct ending as [[]|e]; simpl; by rewrite ?app_nil_r.
Qed.
End streaming_paths.

(* ===================================================================== *)
(** ** Further properties: configuration, prompt and conversation *)
(* ===================================================================== *)

(** X1: resolving a concatenation of selections gives the union of the
    two resolutions, so selecting in several steps, or selecting an
    identifier twice, changes nothing. *)
Theorem config_of_concatenation (selected selected' : list MCPType) (path : string) :
  get_mcp_server_config (selected ++ selected') path
  = get_mcp_server_config selected path ∪ get_mcp_server_config selected' path
  ∧ get_mcp_server_config (selected ++ selected) path
    = get_mcp_server_config selected path.
Proof.
  assert (∀ l l', get_mcp_server_config (l ++ l') path
                  = get_mcp_server_config l path ∪ get_mcp_server_config l' path) as Hu.
  { intros l l'. apply map_eq; intros k.
    rewrite lookup_union, !config_lookup.
    repeat (destruct (decide (_ ∧ _)) as [[? ?]|?]); simpl; try done;
      exfalso; rewrite elem_of_app in *; tauto. }
  split; [apply Hu|]. rewrite Hu. apply (idemp_L (∪)).
Qed.

(** X2: for a selection made of members of [MCPType] only, which is what
    request validation lets through, the resolved config is empty exactly
    when nothing is selected. *)
Theorem config_empty_iff_nothing_selected (selected : list MCPType) (path : string) :
  Forall (λ mcp_type, mcp_type ∈ MCPType_members) selected →
  get_mcp_server_config selected path = ∅ ↔ selected = [].
Proof.
  intros Hvalid. rewrite config_empty_iff. split.
  - intros Hnot. destruct selected as [|t ts]; [done|].
    apply Forall_cons in Hvalid as [Ht _].
    apply list_elem_of_singleton in Ht as ->. exfalso. apply Hnot. by left.
  - intros ->. apply not_elem_of_nil.
Qed.

Lemma config_empty_iff_nothing_selected_witness :
  get_mcp_server_config [FILESYSTEM; FILESYSTEM] "/srv/data" = ∅
  ↔ [FILESYSTEM; FILESYSTEM] = [].
Proof.
  apply (config_empty_iff_nothing_selected [FILESYSTEM; FILESYSTEM] "/srv/data").
  unfold MCPType_members. repeat constructor.
Defined.


Lemma converted_messages (history : list ChatMessage) :
  Forall (λ msg, (message_role msg = "user" ∨ message_role msg = "assistant")
                 ∧ msg_tool_calls msg = [])
    (omap convert history).
Proof.
  induction history as [|entry history IH]; [constructor|]. csimpl.
  destruct (convert entry) as [b|] eqn:Hc; [|done].
  constructor; [|done]. unfold convert in Hc.
  repeat case_decide; simplify_eq/=; auto.
Qed.

Lemma converted_length (history : list ChatMessage) :
  length (omap convert history) ≤ length history
  ∧ (length (omap convert history) = length history ↔ Forall replayed history).
Proof.
  induction history as [|entry history [IHle IHeq]].
  - split; [done|]. split; [constructor | done].
  - csimpl. destruct (convert entry) as [b|] eqn:Hc; simpl.
    + apply convert_Some in Hc as [Hrep _]. split; [lia|].
      rewrite Forall_cons. split.
      * intros Hlen. split; [done|]. apply IHeq. lia.
      * intros [_ Hall]. f_equal. by apply IHeq.
    + apply convert_None in Hc. split; [lia|].
      rewrite Forall_cons. split; [lia | tauto].
Qed.

Lemma traced_calls_assembled (system_prompt user_message : string)
    (h : option (list ChatMessage)) :
  traced_calls (assemble system_prompt h user_message) = [].
Proof.
  rewrite assemble_eq. unfold traced_calls. csimpl.
  rewrite bind_app. csimpl. rewrite app_nil_r.
  induction (converted_messages (default [] h)) as [|b l [_ Hb] _ IH]; [done|].
  csimpl. by rewrite Hb, IH.
Qed.

Lemma assemble_last (system_prompt user_message : string)
    (h : option (list ChatMessage)) :
  last (assemble system_prompt h user_message) = Some (HumanMessage user_message).
Proof.
  rewrite assemble_eq.
  change (SystemMessage system_prompt
            :: omap convert (default [] h) ++ [HumanMessage user_message])
    with ((SystemMessage system_prompt :: omap convert (default [] h))
            ++ [HumanMessage user_message]).
  apply last_snoc.
Qed.

(** X4: whatever the history holds, the assembled conversation starts
    with the one system message, ends with the new user message, has only
    user and assistant messages in between, carries no tool call, and has
    between 2 and [len(history) + 2] messages. *)
Theorem assembled_conversation_shape
    (system_prompt user_message : string) (h : option (list ChatMessage)) :
  let result := assemble system_prompt h user_message in
  head result = Some (SystemMessage system_prompt)
  ∧ last result = Some (HumanMessage user_message)
  ∧ Forall (λ msg, message_role msg = "user" ∨ message_role msg = "assistant")
      (tail result)
  ∧ traced_calls result = []
  ∧ 2 ≤ length result ≤ length (default [] h) + 2.
Proof.
  intros result.
  assert (result = SystemMessage system_prompt
                     :: omap convert (default [] h) ++ [HumanMessage user_message])
    as Hres by apply assemble_eq.
  split; [by rewrite Hres|]. split; [apply assemble_last|].
  split.
  { rewrite Hres. simpl tail. apply Forall_app_2.
    - eapply Forall_impl; [apply converted_messages|]. by intros msg [? _].
    - constructor; [by left | constructor]. }
  split; [apply traced_calls_assembled|].
  rewrite Hres. simpl. rewrite length_app. simpl.
  pose proof (converted_length (default [] h)) as [Hle _]. lia.
Qed.

(** X5: the assembled conversation has a message for every history entry
    exactly when every entry has role ["user"] or ["assistant"]; any other
    role makes it shorter. *)
Theorem history_kept_iff_roles_known
    (system_prompt user_message : string) (history : list ChatMessage) :
  length (assemble system_prompt (Some history) user_message) = length history + 2
  ↔ Forall replayed history.
Proof.
  rewrite assemble_eq. simpl. rewrite length_app. simpl.
  pose proof (converted_length history) as [Hle Hiff].
  rewrite <-Hiff. lia.
Qed.

Lemma read_trace_appended (messages added : list BaseMessage) (user_message : string) :
  last messages = Some (HumanMessage user_message) →
  traced_calls messages = [] →
  read_trace (Some (messages ++ added))
  = (match last added with
     | Some msg => msg_content msg
     | None => user_message
     end,
     call_name <$> traced_calls added).
Proof.
  intros Hlast Hnone. unfold read_trace. simpl default. f_equal.
  - destruct added as [|a added _] using rev_ind.
    + by rewrite app_nil_r, Hlast.
    + by rewrite app_assoc, !last_snoc.
  - unfold traced_calls in *. by rewrite bind_app, Hnone.
Qed.

(** X6: in a blocking turn whose reasoning loop hands back the
    conversation it was given followed by the messages it added, the
    reported tools are the tool calls of the added messages alone, and the
    response is the content of the last added message; if nothing was
    added, the response is the user's own message. *)
Theorem tools_used_come_from_the_loop
    (E : Engine) (self : MCPAgentBuilder) (user_message : string)
    (selected : list MCPType) (history : option (list ChatMessage))
    (tools : list Tool) (added : list BaseMessage) :
  let mcp_config := get_mcp_server_config selected default_filesystem_path in
  let tools' := enable_error_handling tools in
  let agent := create_react_agent (llm self) tools' in
  let messages :=
    assemble (_get_system_prompt selected (Some (name <$> tools'))) history
      user_message in
  mcp_config ≠ ∅ →
  get_tools E mcp_config = Returned tools →
  agent_ainvoke E agent messages = Returned (Some (messages ++ added)) →
  (run_agent E self user_message selected history).2
  = Returned (match last added with
              | Some msg => msg_content msg
              | None => user_message
              end,
              call_name <$> traced_calls added).
Proof.
  intros mcp_config tools' agent messages Hcfg Htools Hrun.
  rewrite (run_agent_tooled E self user_message selected history tools Hcfg Htools).
  fold tools' agent messages. rewrite Hrun. cbn [snd]. f_equal.
  apply read_trace_appended.
  - apply assemble_last.
  - apply traced_calls_assembled.
Qed.

Lemma tools_used_come_from_the_loop_witness :
  (run_agent Stub.engine Stub.builder "list files" [FILESYSTEM] None).2
  = Returned ("a.txt, b.txt", ["list_directory"]).
Proof.
  refine (tools_used_come_from_the_loop Stub.engine Stub.builder "list files"
            [FILESYSTEM] None [Stub.list_directory] Stub.reply _ _ _).
  - by vm_compute.
  - reflexivity.
  - reflexivity.
Defined.

(* ===================================================================== *)
(** ** Further properties: the two turns, path by path *)
(* ===================================================================== *)

(** X7: a blocking turn whose selection does not hold ["filesystem"]
    (nothing selected, or only identifiers the resolver does not know)
    makes one call, to the chat model, with the toolless prompt in front
    of the conversation; it builds no tool client, and it returns the
    model's text with an empty tool list, or raises what the model
    raised. *)
Theorem blocking_turn_without_server
    (E : Engine) (self : MCPAgentBuilder) (user_message : string)
    (selected : list MCPType) (history : option (list ChatMessage)) :
  FILESYSTEM ∉ selected →
  let messages := assemble toolless_prompt history user_message in
  run_agent E self user_message selected history
  = ([Do (LLMInvoke (llm self) messages)],
     match llm_ainvoke E (llm self) messages with
     | Returned response => Returned (msg_content response, [])
     | Raised e => Raised e
     end).
Proof.
  intros Hnot messages.
  apply (run_agent_plain E self user_message selected history).
  by apply config_not_selected.
Qed.

Lemma blocking_turn_without_server_witness :
  run_agent Stub.engine Stub.builder "2+2?" ["s3"] None
  = ([Do (LLMInvoke (llm Stub.builder) (assemble toolless_prompt None "2+2?"))],
     Returned ("4", [])).
Proof.
  apply (blocking_turn_without_server Stub.engine Stub.builder "2+2?" ["s3"] None).
  intros Hin. apply elem_of_cons in Hin as [Hin|Hin]; [discriminate Hin|].
  by apply elem_of_nil in Hin.
Defined.

(** X8: a streaming turn whose selection does not hold ["filesystem"]
    makes one call, to the chat model's stream; it yields one [token] per
    non-empty chunk, in order, and then [done] with an empty tool list if
    the stream ended on its own; the tokens together are the whole text of
    the stream. *)
Theorem streaming_turn_without_server
    (E : Engine) (self : MCPAgentBuilder) (user_message : string)
    (selected : list MCPType) (history : option (list ChatMessage))
    (chunks : list string) (ending : Outcome unit) :
  FILESYSTEM ∉ selected →
  let messages := assemble toolless_prompt history user_message in
  let run := stream_agent E self user_message selected history in
  llm_astream E (llm self) messages = (chunks, ending) →
  calls run.1 = [LLMStream (llm self) messages]
  ∧ yields run.1
    = (Token <$> filter (λ text, text ≠ "") chunks)
        ++ match ending with
           | Returned _ => [Done []]
           | Raised _ => []
           end
  ∧ joined (token_texts (yields run.1)) = joined chunks.
Proof.
  intros Hnot messages run Hsrc.
  assert (run = (Do (LLMStream (llm self) messages)
                   :: (Yield <$> (Token <$> filter (λ text, text ≠ "") chunks))
                   ++ match ending with
                      | Returned _ => [Yield (Done [])]
                      | Raised _ => []
                      end,
                 ending)) as ->.
  { apply (stream_agent_plain E self user_message selected history chunks ending);
      [by apply config_not_selected | exact Hsrc]. }
  simpl fst.
  assert (∀ l : list string, token_texts (Token <$> l) = l) as Htexts.
  { intros l. unfold token_texts. induction l as [|x l IH]; [done|].
    csimpl. by rewrite IH. }
  change (Do (LLMStream (llm self) messages) :: ?l) with
    ((Do <$> [LLMStream (llm self) messages]) ++ l).
  rewrite !calls_app, !yields_app, calls_Do, yields_Do, calls_Yield, yields_Yield.
  destruct ending as [[]|e]; simpl; rewrite ?app_nil_r;
    (split; [done|]); (split; [done|]).
  - rewrite token_texts_app, Htexts. simpl. rewrite app_nil_r. apply joined_nonempty.
  - rewrite Htexts. apply joined_nonempty.
Qed.

Lemma streaming_turn_without_server_witness :
  yields (stream_agent Stub.engine Stub.builder "2+2?" ["s3"] None).1
  = [Token "4"; Done []].
Proof.
  refine (proj1 (proj2 (streaming_turn_without_server Stub.engine Stub.builder
                          "2+2?" ["s3"] None ["4"; ""] (Returned ()) _ _))).
  - intros Hin. apply elem_of_cons in Hin as [Hin|Hin]; [discriminate Hin|].
    by apply elem_of_nil in Hin.
  - reflexivity.
Defined.

(** The run of a streaming turn once tools are found, with what its
    events have to do with the feed of the reasoning loop. *)
Lemma stream_agent_tooled_full
    (E : Engine) (self : MCPAgentBuilder) (user_message : string)
    (selected : list MCPType) (history : option (list ChatMessage))
    (tools : list Tool) (evs : list AgentEvent) (ending : Outcome unit) :
  let mcp_config := get_mcp_server_config selected default_filesystem_path in
  let tools' := enable_error_handling tools in
  let agent := create_react_agent (llm self) tools' in
  let messages :=
    assemble (_get_system_prompt selected (Some (name <$> tools'))) history
      user_message in
  FILESYSTEM ∈ selected →
  get_tools E mcp_config = Returned tools →
  agent_astream_events E agent messages = (evs, ending) →
  ∃ body,
    yields (stream_agent E self user_message selected history).1
    = body ++ match ending with
              | Returned _ => [Done (started_tools body)]
              | Raised _ => []
              end
    ∧ Forall well_formed body
    ∧ Forall (λ out, nonterminal out = true) body
    ∧ started_tools body = event_name <$> of_kind "on_tool_start" evs
    ∧ ended_tools body = event_name <$> of_kind "on_tool_end" evs
    ∧ joined (token_texts body)
      = joined ((chunk ∘ data) <$> of_kind "on_chat_model_stream" evs)
    ∧ length body ≤ length (filter handled evs).
Proof.
  intros mcp_config tools' agent messages Hin Htools Hsrc.
  assert (mcp_config ≠ ∅) as Hcfg.
  { intros Hempty. by apply config_empty_iff in Hempty. }
  destruct (stream_agent_tooled E self user_message selected history tools evs ending
              Hcfg Htools Hsrc) as (body & Hloop & ->).
  destruct (for_each_agent_events_full evs []) as (body' & Hloop' & Hfacts).
  rewrite Hloop in Hloop'. injection Hloop' as Hsame _.
  apply Yield_fmap_inj in Hsame as <-.
  exists body. split; [|exact Hfacts]. simpl fst.
  lazymatch goal with
  | |- yields (Do _ :: Do _ :: Do _ :: ?rest) = ?r => change (yields rest = r)
  end.
  rewrite yields_app, yields_Yield.
  by destruct ending as [[]|e].
Qed.

(** X9: in a streaming turn with tools, the [tool_start] events name the
    tool-start events of the loop's feed, one for one and in order, the
    [tool_end] events likewise name its tool-end events, the list in
    [done] is the list of the started tools, and there is at most one
    event per handled feed event, plus [done]. *)
Theorem stream_reports_every_tool_event
    (E : Engine) (self : MCPAgentBuilder) (user_message : string)
    (selected : list MCPType) (history : option (list ChatMessage))
    (tools : list Tool) (evs : list AgentEvent) (ending : Outcome unit) :
  let mcp_config := get_mcp_server_config selected default_filesystem_path in
  let tools' := enable_error_handling tools in
  let agent := create_react_agent (llm self) tools' in
  let messages :=
    assemble (_get_system_prompt selected (Some (name <$> tools'))) history
      user_message in
  let out := yields (stream_agent E self user_message selected history).1 in
  FILESYSTEM ∈ selected →
  get_tools E mcp_config = Returned tools →
  agent_astream_events E agent messages = (evs, ending) →
  started_tools out = event_name <$> of_kind "on_tool_start" evs
  ∧ ended_tools out = event_name <$> of_kind "on_tool_end" evs
  ∧ (ending = Returned () →
     last out = Some (Done (event_name <$> of_kind "on_tool_start" evs)))
  ∧ length out ≤ length (filter handled evs) + 1.
Proof.
  intros mcp_config tools' agent messages out Hin Htools Hsrc.
  destruct (stream_agent_tooled_full E self user_message selected history tools evs
              ending Hin Htools Hsrc)
    as (body & Hout & _ & _ & Hst & Hen & _ & Hlen).
  unfold out. rewrite Hout.
  rewrite started_tools_app, ended_tools_app, length_app, <-Hst, <-Hen.
  destruct ending as [[]|e]; simpl; rewrite ?app_nil_r.
  - repeat split; try done; [by rewrite last_snoc | lia].
  - repeat split; try done. lia.
Qed.

Lemma stream_reports_every_tool_event_witness :
  last (yields (stream_agent Stub.engine Stub.builder "list files" [FILESYSTEM] None).1)
  = Some (Done ["list_directory"]).
Proof.
  refine (proj1 (proj2 (proj2 (stream_reports_every_tool_event Stub.engine Stub.builder
            "list files" [FILESYSTEM] None [Stub.list_directory]
            [Stub.chain_started;
             Stub.tool_started "list_directory"
               {| py_str := "<Path .>"; json_serializable := false |};
             Stub.tool_ended "list_directory" (py_of_str "a.txt b.txt");
             Stub.model_chunk "a.txt, ";
             Stub.model_chunk "b.txt"]
            (Returned ()) _ _ _))) _).
  - by left.
  - reflexivity.
  - reflexivity.
  - reflexivity.
Defined.

(** X10: in a streaming turn with tools, the [token] events put together
    are the text of all model-stream chunks of the feed put together:
    empty chunks are skipped and no text is lost. *)
Theorem stream_keeps_the_model_text
    (E : Engine) (self : MCPAgentBuilder) (user_message : string)
    (selected : list MCPType) (history : option (list ChatMessage))
    (tools : list Tool) (evs : list AgentEvent) (ending : Outcome unit) :
  let mcp_config := get_mcp_server_config selected default_filesystem_path in
  let tools' := enable_error_handling tools in
  let agent := create_react_agent (llm self) tools' in
  let messages :=
    assemble (_get_system_prompt selected (Some (name <$> tools'))) history
      user_message in
  FILESYSTEM ∈ selected →
  get_tools E mcp_config = Returned tools →
  agent_astream_events E agent messages = (evs, ending) →
  joined (token_texts (yields (stream_agent E self user_message selected history).1))
  = joined ((chunk ∘ data) <$> of_kind "on_chat_model_stream" evs).
Proof.
  intros mcp_config tools' agent messages Hin Htools Hsrc.
  destruct (stream_agent_tooled_full E self user_message selected history tools evs
              ending Hin Htools Hsrc)
    as (body & -> & _ & _ & _ & _ & Htx & _).
  rewrite token_texts_app, joined_app, Htx.
  destruct ending as [[]|e]; simpl; by rewrite append_nil_r.
Qed.

Lemma stream_keeps_the_model_text_witness :
  joined (token_texts
            (yields (stream_agent Stub.engine Stub.builder "list files"
                       [FILESYSTEM] None).1))
  = "a.txt, b.txt".
Proof.
  refine (stream_keeps_the_model_text Stub.engine Stub.builder
            "list files" [FILESYSTEM] None [Stub.list_directory]
            [Stub.chain_started;
             Stub.tool_started "list_directory"
               {| py_str := "<Path .>"; json_serializable := false |};
             Stub.tool_ended "list_directory" (py_of_str "a.txt b.txt");
             Stub.model_chunk "a.txt, ";
             Stub.model_chunk "b.txt"]
            (Returned ()) _ _ _).
  - by left.
  - reflexivity.
  - reflexivity.
Defined.

(** X11: every event a streaming turn yields is well formed for its kind:
    a [token] has non-empty text, the input of a [tool_start] is
    something [json.dumps] accepts, and the output of a [tool_end] has at
    most 500 code points. *)
Theorem stream_events_are_well_formed
    (E : Engine) (self : MCPAgentBuilder) (user_message : string)
    (selected : list MCPType) (history : option (list ChatMessage)) :
  Forall well_formed (yields (stream_agent E self user_message selected history).1).
Proof.
  destruct (decide (FILESYSTEM ∈ selected)) as [Hin|Hnot].
  - destruct (get_tools E (get_mcp_server_config selected default_filesystem_path))
      as [tools|e] eqn:Htools.
    + destruct (agent_astream_events E
                  (create_react_agent (llm self) (enable_error_handling tools))
                  (assemble
                     (_get_system_prompt selected
                        (Some (name <$> enable_error_handling tools)))
                     history user_message)) as [evs ending] eqn:Hsrc.
      destruct (stream_agent_tooled_full E self user_message selected history tools
                  evs ending Hin Htools Hsrc) as (body & -> & Hwf & _).
      apply Forall_app_2; [done|]. destruct ending; by repeat constructor.
    + rewrite (stream_agent_discovery_fails E self user_message selected history e);
        [constructor | | done].
      intros Hempty. by apply config_empty_iff in Hempty.
  - destruct (llm_astream E (llm self) (assemble toolless_prompt history user_message))
      as [chunks ending] eqn:Hsrc.
    rewrite (stream_agent_plain E self user_message selected history chunks ending
               (config_not_selected _ _ Hnot) Hsrc).
    simpl fst.
    lazymatch goal with
    | |- Forall _ (yields (Do _ :: ?rest)) => change (Forall well_formed (yields rest))
    end.
    rewrite yields_app, yields_Yield.
    replace (yields match ending with
                    | Returned _ => [Yield (Done [])]
                    | Raised _ => []
                    end)
      with (match ending with
            | Returned _ => [Done []]
            | Raised _ => @nil StreamEvent
            end) by (by destruct ending).
    apply Forall_app_2.
    + apply Forall_fmap, Forall_forall. intros text Hin.
      by apply list_elem_of_filter in Hin as [? _].
    + destruct ending; by repeat constructor.
Qed.



Lemma on_agent_event_unhandled (used : list string) (ev : AgentEvent) :
  ¬ handled ev → on_agent_event used ev = ret used.
Proof.
  intros Hno. destruct (on_agent_event_full used ev) as (b & Hb & _ & _ & _ & _ & _ & Hlen).
  rewrite decide_False in Hlen by done. subst b. rewrite Hb. cbn.
  by rewrite app_nil_r.
Qed.

(** X13: feed events of any kind other than model stream, tool start and
    tool end leave no trace: the loop over a feed does what the loop over
    its handled events does. *)
Theorem unhandled_events_are_skipped
    (evs : list AgentEvent) (ending : Outcome unit) (used : list string) :
  async_for (evs, ending) on_agent_event used
  = async_for (filter handled evs, ending) on_agent_event used.
Proof.
  unfold async_for. simpl fst. simpl snd. f_equal.
  revert used. induction evs as [|ev evs IH]; intros used; [done|].
  rewrite filter_cons. destruct (decide (handled ev)) as [Hh|Hh].
  - simpl. destruct (on_agent_event used ev) as [steps [used'|e]]; [|done].
    by rewrite !bind_returned, IH.
  - simpl. rewrite (on_agent_event_unhandled _ _ Hh). unfold ret.
    rewrite bind_returned. simpl. rewrite IH. by destruct (for_each _ _ _).
Qed.

(* ===================================================================== *)
(** ** Further properties: the endpoints *)
(* ===================================================================== *)

(** X14: [event_generator] passes on every event of [stream_agent]
    unchanged and in order, names each frame after the type of the event
    it carries, and makes no call of its own.  If [stream_agent] raised an
    instance of [Exception] it adds one [error] event with the text of the
    exception and ends normally; if [stream_agent] raised anything else,
    it adds nothing and the exception goes on to the consumer. *)
Theorem frames_are_the_events
    (E : Engine) (settings : Settings) (request : ChatRequest) :
  let inner :=
    stream_agent E
      (MCPAgentBuilder_init (model_name settings) (google_api_key settings))
      (message request) (selected_mcps request)
      (Some (conversation_history request)) in
  let run := chat_stream E settings request in
  sse_data <$> yields run.1
  = yields inner.1 ++ match inner.2 with
                      | Returned _ => []
                      | Raised e => if is_exception e then [Error (str_exn e)] else []
                      end
  ∧ Forall (λ frame, sse_event frame = type_of (sse_data frame)) (yields run.1)
  ∧ calls run.1 = calls inner.1
  ∧ run.2 = match inner.2 with
            | Returned _ => Returned ()
            | Raised e => if is_exception e then Returned () else Raised e
            end.
Proof.
  intros inner run.
  assert (run = ((framed <$> inner.1)
                   ++ match inner.2 with
                      | Returned _ => []
                      | Raised e =>
                          if is_exception e
                          then [Yield (frame_of (Error (str_exn e)))] else []
                      end,
                 match inner.2 with
                 | Returned _ => Returned ()
                 | Raised e => if is_exception e then Returned () else Raised e
                 end)) as ->.
  { unfold run, chat_stream. rewrite event_generator_shape.
    rewrite <-stream_agent_ending. by fold inner. }
  simpl fst. simpl snd.
  assert (yields ((framed <$> inner.1)
                    ++ match inner.2 with
                       | Returned _ => []
                       | Raised e =>
                           if is_exception e
                           then [Yield (frame_of (Error (str_exn e)))] else []
                       end)
          = (frame_of <$> yields inner.1)
              ++ match inner.2 with
                 | Returned _ => []
                 | Raised e =>
                     if is_exception e then [frame_of (Error (str_exn e))] else []
                 end) as ->.
  { rewrite yields_app, yields_framed.
    destruct inner.2 as [|e]; [done|]. by destruct (is_exception e). }
  split; [|split; [|split; [|done]]].
  - rewrite fmap_app, <-list_fmap_compose.
    rewrite (list_fmap_ext (sse_data ∘ frame_of) id) by done.
    rewrite list_fmap_id.
    destruct inner.2 as [|e]; [done|]. by destruct (is_exception e).
  - apply Forall_app_2.
    + by apply Forall_fmap, Forall_true.
    + destruct inner.2 as [|e]; [constructor|].
      destruct (is_exception e); by repeat constructor.
  - rewrite calls_app, calls_framed.
    destruct inner.2 as [|e]; [|destruct (is_exception e)]; simpl;
      by rewrite app_nil_r.
Qed.

(** X15: when tool discovery raises, neither turn builds an agent; both
    have only created the client and asked for its tools.  For an
    instance of [Exception] the streaming endpoint yields the single frame
    [error] with [str(e)] and ends normally, and the blocking endpoint
    raises an HTTP 500 whose detail ends with [str(e)]; anything else is
    raised by both endpoints as it is. *)
Theorem discovery_failure_ends_the_turn
    (E : Engine) (settings : Settings) (request : ChatRequest) (e : Exn) :
  let mcp_config :=
    get_mcp_server_config (selected_mcps request) default_filesystem_path in
  FILESYSTEM ∈ selected_mcps request →
  get_tools E mcp_config = Raised e →
  if is_exception e
  then chat_stream E settings request
       = ([Do (NewClient mcp_config); Do GetTools;
           Yield {| sse_event := "error"; sse_data := Error (str_exn e) |}],
          Returned ())
       ∧ chat E settings request
         = ([Do (NewClient mcp_config); Do GetTools],
            Raised (HTTPException 500 ("Agent execution failed: " +:+ str_exn e)))
  else chat_stream E settings request
       = ([Do (NewClient mcp_config); Do GetTools], Raised e)
       ∧ chat E settings request
         = ([Do (NewClient mcp_config); Do GetTools], Raised e).
Proof.
  intros mcp_config Hin Htools.
  assert (mcp_config ≠ ∅) as Hcfg.
  { intros Hempty. by apply config_empty_iff in Hempty. }
  assert (chat_stream E settings request
          = ([Do (NewClient mcp_config); Do GetTools]
               ++ (if is_exception e
                   then [Yield (frame_of (Error (str_exn e)))] else []),
             if is_exception e then Returned () else Raised e)) as ->.
  { unfold chat_stream. rewrite event_generator_shape.
    rewrite <-stream_agent_ending.
    by rewrite (stream_agent_discovery_fails E _ _ _ _ e Hcfg Htools). }
  unfold chat.
  rewrite (run_agent_discovery_fails E _ _ _ _ e Hcfg Htools).
  fold mcp_config. simpl. by destruct (is_exception e).
Qed.

Lemma discovery_failure_ends_the_turn_witness :
  yields (chat_stream Cases.down_engine Stub.settings Stub.files_request).1
  = [{| sse_event := "error"; sse_data := Error "npx: command not found" |}].
Proof.
  pose proof (discovery_failure_ends_the_turn Cases.down_engine Stub.settings
                Stub.files_request (Exception "npx: command not found")) as Hturn.
  destruct Hturn as [Hstream _].
  - by left.
  - reflexivity.
  - rewrite Hstream. reflexivity.
Defined.

(** X16: when the blocking turn raises an instance of [Exception], the
    endpoint [/chat] raises an HTTP 500 whose detail is
    ["Agent execution failed: "] followed by [str(e)]; anything else the
    turn raises leaves the endpoint as it is. *)
Theorem turn_failure_becomes_http_500
    (E : Engine) (settings : Settings) (request : ChatRequest) (cause : Exn) :
  (run_agent E
     (MCPAgentBuilder_init (model_name settings) (google_api_key settings))
     (message request) (selected_mcps request)
     (Some (conversation_history request))).2 = Raised cause →
  (chat E settings request).2
  = if is_exception cause
    then Raised (HTTPException 500 ("Agent execution failed: " +:+ str_exn cause))
    else Raised cause.
Proof.
  unfold chat. destruct (run_agent _ _ _ _ _) as [steps outcome]. simpl.
  intros ->. simpl. by destruct (is_exception cause).
Qed.

Lemma turn_failure_becomes_http_500_witness :
  (chat Stub.failing_engine Stub.settings Stub.plain_request).2
  = Raised (HTTPException 500 "Agent execution failed: quota exceeded").
Proof.
  apply (turn_failure_becomes_http_500 Stub.failing_engine Stub.settings
           Stub.plain_request (Exception "quota exceeded")).
  reflexivity.
Defined.

Lemma stream_calls_as_blocking
    (E : Engine) (self : MCPAgentBuilder) (user_message : string)
    (selected : list MCPType) (history : option (list ChatMessage)) :
  blocking_call <$> calls (stream_agent E self user_message selected history).1
  = calls (run_agent E self user_message selected history).1.
Proof.
  destruct (decide (get_mcp_server_config selected default_filesystem_path = ∅))
    as [Hcfg|Hcfg].
  - destruct (llm_astream E (llm self)
                (assemble (_get_system_prompt [] None) history user_message))
      as [chunks ending] eqn:Hsrc.
    rewrite (stream_agent_plain E self user_message selected history chunks ending
               Hcfg Hsrc).
    rewrite (run_agent_plain E self user_message selected history Hcfg).
    simpl fst.
    lazymatch goal with
    | |- blocking_call <$> calls (Do ?c :: ?rest) = _ =>
        change (blocking_call c :: (blocking_call <$> calls rest) = [blocking_call c])
    end.
    rewrite calls_app, calls_Yield. by destruct ending.
  - destruct (get_tools E (get_mcp_server_config selected default_filesystem_path))
      as [tools|e] eqn:Htools.
    + destruct (agent_astream_events E
                  (create_react_agent (llm self) (enable_error_handling tools))
                  (assemble
                     (_get_system_prompt selected
                        (Some (name <$> enable_error_handling tools)))
                     history user_message)) as [evs ending] eqn:Hsrc.
      destruct (stream_agent_tooled E self user_message selected history tools evs
                  ending Hcfg Htools Hsrc) as (body & _ & ->).
      rewrite (run_agent_tooled E self user_message selected history tools Hcfg Htools).
      simpl fst.
      lazymatch goal with
      | |- blocking_call <$> calls (Do ?a :: Do ?b :: Do ?c :: ?rest) = _ =>
          change (blocking_call a :: blocking_call b :: blocking_call c
                    :: (blocking_call <$> calls rest)
                  = [blocking_call a; blocking_call b; blocking_call c])
      end.
      rewrite calls_app, calls_Yield. by destruct ending.
    + rewrite (stream_agent_discovery_fails E self user_message selected history e
                 Hcfg Htools).
      by rewrite (run_agent_discovery_fails E self user_message selected history e
                    Hcfg Htools).
Qed.

(** X17: the streaming turn and the blocking turn make the same calls with
    the same arguments, one for one: the same client config, the same
    discovery, and the same model or agent with the same conversation; only
    the last call is the streaming variant in one and the blocking variant
    in the other. *)
Theorem both_turns_make_the_same_calls
    (E : Engine) (self : MCPAgentBuilder) (user_message : string)
    (selected : list MCPType) (history : option (list ChatMessage)) :
  blocking_call <$> calls (stream_agent E self user_message selected history).1
  = calls (run_agent E self user_message selected history).1.
Proof. apply stream_calls_as_blocking. Qed.

(** X18: when a server is selected but discovery finds no tool, the turn
    still starts the reasoning loop, with an empty tool set and with the
    toolless prompt in front of the conversation, in the blocking and in
    the streaming turn. *)
Theorem turn_without_discovered_tools
    (E : Engine) (self : MCPAgentBuilder) (user_message : string)
    (selected : list MCPType) (history : option (list ChatMessage)) :
  let mcp_config := get_mcp_server_config selected default_filesystem_path in
  let agent := {| agent_model := llm self; agent_tools := [] |} in
  let messages := assemble toolless_prompt history user_message in
  FILESYSTEM ∈ selected →
  get_tools E mcp_config = Returned [] →
  calls (run_agent E self user_message selected history).1
  = [NewClient mcp_config; GetTools; AgentInvoke agent messages]
  ∧ calls (stream_agent E self user_message selected history).1
    = [NewClient mcp_config; GetTools; AgentStreamEvents agent messages].
Proof.
  intros mcp_config agent messages Hin Htools.
  assert (mcp_config ≠ ∅) as Hcfg.
  { intros Hempty. by apply config_empty_iff in Hempty. }
  assert (_get_system_prompt selected (Some []) = toolless_prompt) as Hprompt.
  { by destruct selected. }
  subst agent messages. split.
  - rewrite (run_agent_tooled E self user_message selected history [] Hcfg Htools).
    simpl fst. by rewrite Hprompt.
  - destruct (agent_astream_events E {| agent_model := llm self; agent_tools := [] |}
                (assemble toolless_prompt history user_message))
      as [evs ending] eqn:Hsrc.
    rewrite <-Hprompt in Hsrc.
    destruct (stream_agent_tooled E self user_message selected history [] evs ending
                Hcfg Htools Hsrc) as (body & _ & ->).
    simpl fst. rewrite Hprompt.
    lazymatch goal with
    | |- calls (Do ?a :: Do ?b :: Do ?c :: ?rest) = _ =>
        change (a :: b :: c :: calls rest = [a; b; c])
    end.
    rewrite calls_app, calls_Yield. by destruct ending.
Qed.

Lemma turn_without_discovered_tools_witness :
  calls (run_agent Cases.bare_engine Stub.builder "list files" [FILESYSTEM] None).1
  = [NewClient (get_mcp_server_config [FILESYSTEM] default_filesystem_path);
     GetTools;
     AgentInvoke {| agent_model := llm Stub.builder; agent_tools := [] |}
       (assemble toolless_prompt None "list files")].
Proof.
  refine (proj1 (turn_without_discovered_tools Cases.bare_engine Stub.builder
                   "list files" [FILESYSTEM] None _ _)).
  - by left.
  - reflexivity.
Defined.

Lemma run_agent_models
    (E : Engine) (self : MCPAgentBuilder) (user_message : string)
    (selected : list MCPType) (history : option (list ChatMessage)) :
  Forall (λ c, ∀ model, call_llm c = Some model → model = llm self)
    (calls (run_agent E self user_message selected history).1).
Proof.
  destruct (decide (get_mcp_server_config selected default_filesystem_path = ∅))
    as [Hcfg|Hcfg].
  - rewrite (run_agent_plain E self user_message selected history Hcfg).
    repeat constructor. by intros model [= <-].
  - destruct (get_tools E (get_mcp_server_config selected default_filesystem_path))
      as [tools|e] eqn:Htools.
    + rewrite (run_agent_tooled E self user_message selected history tools Hcfg Htools).
      repeat constructor; try done. by intros model [= <-].
    + rewrite (run_agent_discovery_fails E self user_message selected history e
                 Hcfg Htools).
      by repeat constructor.
Qed.

(** X19: every call a request makes to the chat model or to an agent, on
    the blocking and on the streaming endpoint, goes to the model built
    from [MODEL_NAME] and [GOOGLE_API_KEY] of the settings. *)
Theorem model_comes_from_the_settings
    (E : Engine) (settings : Settings) (request : ChatRequest)
    (c : Call) (model : LLM) :
  c ∈ calls (chat E settings request).1
  ∨ c ∈ calls (chat_stream E settings request).1 →
  call_llm c = Some model →
  model = {| llm_model := model_name settings;
             llm_api_key := google_api_key settings |}.
Proof.
  intros [Hin|Hin] Hmodel.
  - rewrite chat_calls in Hin.
    eapply Forall_forall in Hin; [|apply run_agent_models]. by apply Hin.
  - unfold chat_stream in Hin. rewrite event_generator_calls in Hin.
    apply (list_elem_of_fmap_2 blocking_call) in Hin.
    rewrite stream_calls_as_blocking in Hin.
    eapply Forall_forall in Hin; [|apply run_agent_models].
    apply Hin. by destruct c.
Qed.

Lemma model_comes_from_the_settings_witness :
  {| llm_model := "gemini-2.0-flash"; llm_api_key := "key" |}
  = {| llm_model := model_name Stub.settings;
       llm_api_key := google_api_key Stub.settings |}.
Proof.
  refine (model_comes_from_the_settings Stub.engine Stub.settings Stub.plain_request
            (LLMInvoke {| llm_model := "gemini-2.0-flash"; llm_api_key := "key" |}
               (assemble toolless_prompt (Some []) "2+2?"))
            _ _ _).
  - left. vm_compute. left.
  - reflexivity.
Defined.

(* ===================================================================== *)
(** ** Further properties: [list_mcps] *)
(* ===================================================================== *)

Lemma list_mcps_run (E : Engine) :
  let config := get_mcp_server_config [FILESYSTEM] default_filesystem_path in
  let entry (found : bool) (names : list string) :=
    {| info_name := "filesystem"; info_type := FILESYSTEM; url := None;
       available := found; info_tools := names |} in
  list_mcps E
  = ([Do (NewClient config); Do GetTools],
     match get_tools E config with
     | Returned tools => Returned [entry true (name <$> tools)]
     | Raised e => if is_exception e then Returned [entry false []] else Raised e
     end).
Proof.
  intros config entry. unfold list_mcps, MCPType_members. simpl for_each.
  unfold list_mcps_step. fold config.
  destruct (get_tools E config) as [tools|e]; [reflexivity|].
  simpl. by destruct (is_exception e).
Qed.

(** X20: the endpoint [/mcps] asks the filesystem server, configured with
    the default path, for its tools once.  When discovery answers it
    returns one entry, named ["filesystem"] and without URL, available
    and with the names of the discovered tools; when discovery raises an
    instance of [Exception] it returns that entry unavailable and with no
    tools; anything else discovery raises, the endpoint raises too. *)
Theorem list_mcps_reports_availability (E : Engine) :
  let config := get_mcp_server_config [FILESYSTEM] default_filesystem_path in
  let entry (found : bool) (names : list string) :=
    {| info_name := "filesystem"; info_type := FILESYSTEM; url := None;
       available := found; info_tools := names |} in
  list_mcps E
  = ([Do (NewClient config); Do GetTools],
     match get_tools E config with
     | Returned tools => Returned [entry true (name <$> tools)]
     | Raised e => if is_exception e then Returned [entry false []] else Raised e
     end).
Proof. apply list_mcps_run. Qed.

(** X21: what [/mcps] lists for an available filesystem server is what a
    blocking turn with that server hands to its agent: the same tool
    names in the same order. *)
Theorem listed_tools_are_the_turn_tools
    (E : Engine) (self : MCPAgentBuilder) (user_message : string)
    (selected : list MCPType) (history : option (list ChatMessage))
    (info : MCPInfo) (agent : Agent) (messages : list BaseMessage) :
  FILESYSTEM ∈ selected →
  (list_mcps E).2 = Returned [info] →
  available info = true →
  AgentInvoke agent messages
    ∈ calls (run_agent E self user_message selected history).1 →
  name <$> agent_tools agent = info_tools info.
Proof.
  intros Hsel Hlist Havail Hin.
  eapply Forall_forall in Hin; [|apply run_agent_calls].
  destruct Hin as (tools & Htools & ->).
  rewrite (config_selected _ _ Hsel) in Htools.
  rewrite list_mcps_run in Hlist. simpl snd in Hlist.
  rewrite (config_selected default_filesystem_path [FILESYSTEM]) in Hlist by (by left).
  rewrite Htools in Hlist. injection Hlist as <-.
  apply enable_error_handling_names.
Qed.

Lemma listed_tools_are_the_turn_tools_witness :
  name <$> [{| name := "list_directory"; handle_tool_error := true |}]
  = ["list_directory"].
Proof.
  refine (listed_tools_are_the_turn_tools Stub.engine Stub.builder "list files"
            [FILESYSTEM] None
            {| info_name := "filesystem"; info_type := FILESYSTEM; url := None;
               available := true; info_tools := ["list_directory"] |}
            (create_react_agent (llm Stub.builder)
               [{| name := "list_directory"; handle_tool_error := true |}])
            (assemble (_get_system_prompt [FILESYSTEM] (Some ["list_directory"]))
               None "list files")
            _ _ _ _).
  - by left.
  - reflexivity.
  - reflexivity.
  - vm_compute. do 2 right. left.
Defined.

(* ===================================================================== *)
(** ** Further properties: the tools handed to the reasoning loop *)
(* ===================================================================== *)

(** X22: when a server is selected and discovery answers, the blocking
    and the streaming turn each start the reasoning loop exactly once,
    after discovery, with one and the same agent: it is built from the
    discovered tools, same names in the same order, and every one of them
    has [handle_tool_error] set, whatever the flag was at discovery. *)
Theorem reasoning_loop_gets_error_handling_tools
    (E : Engine) (self : MCPAgentBuilder) (user_message : string)
    (selected : list MCPType) (history : option (list ChatMessage))
    (tools : list Tool) :
  let mcp_config := get_mcp_server_config selected default_filesystem_path in
  FILESYSTEM ∈ selected →
  get_tools E mcp_config = Returned tools →
  ∃ agent messages,
    calls (run_agent E self user_message selected history).1
    = [NewClient mcp_config; GetTools; AgentInvoke agent messages]
    ∧ calls (stream_agent E self user_message selected history).1
      = [NewClient mcp_config; GetTools; AgentStreamEvents agent messages]
    ∧ name <$> agent_tools agent = name <$> tools
    ∧ Forall (λ tool, handle_tool_error tool = true) (agent_tools agent).
Proof.
  intros mcp_config Hin Htools.
  assert (mcp_config ≠ ∅) as Hcfg.
  { intros Hempty. by apply config_empty_iff in Hempty. }
  exists (create_react_agent (llm self) (enable_error_handling tools)),
    (assemble
       (_get_system_prompt selected (Some (name <$> enable_error_handling tools)))
       history user_message).
  split; [|split; [|split]].
  - by rewrite (run_agent_tooled E self user_message selected history tools Hcfg Htools).
  - destruct (agent_astream_events E
                (create_react_agent (llm self) (enable_error_handling tools))
                (assemble
                   (_get_system_prompt selected
                      (Some (name <$> enable_error_handling tools)))
                   history user_message)) as [evs ending] eqn:Hsrc.
    destruct (stream_agent_tooled E self user_message selected history tools evs
                ending Hcfg Htools Hsrc) as (body & _ & ->).
    simpl fst.
    lazymatch goal with
    | |- calls (Do ?a :: Do ?b :: Do ?c :: ?rest) = _ =>
        change (a :: b :: c :: calls rest = [a; b; c])
    end.
    rewrite calls_app, calls_Yield. by destruct ending.
  - apply enable_error_handling_names.
  - apply enable_error_handling_flags.
Qed.

Lemma reasoning_loop_gets_error_handling_tools_witness :
  ∃ agent messages,
    calls (run_agent Stub.engine Stub.builder "list files" [FILESYSTEM] None).1
    = [NewClient (get_mcp_server_config [FILESYSTEM] default_filesystem_path);
       GetTools; AgentInvoke agent messages]
    ∧ calls (stream_agent Stub.engine Stub.builder "list files" [FILESYSTEM] None).1
      = [NewClient (get_mcp_server_config [FILESYSTEM] default_filesystem_path);
         GetTools; AgentStreamEvents agent messages]
    ∧ name <$> agent_tools agent
      = name <$> [{| name := "list_directory"; handle_tool_error := false |}]
    ∧ Forall (λ tool, handle_tool_error tool = true) (agent_tools agent).
Proof.
  apply (reasoning_loop_gets_error_handling_tools Stub.engine Stub.builder
           "list files" [FILESYSTEM] None
           [{| name := "list_directory"; handle_tool_error := false |}]).
  - by left.
  - reflexivity.
Defined.
